(** * cli-p2p-client: the signaling client of [main.go]

    A shallow embedding of the WebRTC signaling client: the [Client] struct
    with its two maps, the methods that negotiate a peer connection, the
    dispatch loop over the relay's inbound messages and the command loop.

    The program talks to three collaborators that are not part of the
    repository: the websocket connection to the relay, the pion/webrtc
    negotiation objects and encoding/json.  Their answers are not computed
    here; they are read from an environment [Env], and every statement
    below is quantified over that environment.  What the program does with
    them (calls, log lines, prints, writes) is recorded in a trace. *)

From Stdlib Require Import Ascii String.
From stdpp Require Import gmap strings list pretty.

(** ** Strings: the parts of Go's [strings] and [fmt] that main.go uses *)

Module Str.

(** The double quote and the newline, as one-character strings. *)
Definition dquote : string := String "034"%char EmptyString.
Definition newline : string := String "010"%char EmptyString.

(** [cut s sep] splits [s] at the first byte equal to [sep]:
    Go's [strings.Index] followed by the two slices [s[:m]] and [s[m+1:]]. *)
Fixpoint cut (s : string) (sep : ascii) : option (string * string) :=
  match s with
  | EmptyString => None
  | String c rest =>
      if decide (c = sep) then Some (EmptyString, rest)
      else match cut rest sep with
           | Some (a, b) => Some (String c a, b)
           | None => None
           end
  end.

(** The loop of Go's [genSplit]: at most [cuts] separators are consumed,
    what is left becomes the last element. *)
Fixpoint genSplit (s : string) (sep : ascii) (cuts : nat) : list string :=
  match cuts with
  | 0 => [s]
  | S cuts' =>
      match cut s sep with
      | None => [s]
      | Some (a, rest) => a :: genSplit rest sep cuts'
      end
  end.

(** [strings.SplitN(s, sep, n)] for a one-byte separator and [n >= 0]:
    [n = 0] gives no element; otherwise [n] is capped by [len(s)+1] and
    the result has at most [n] elements. *)
Definition SplitN (s : string) (sep : ascii) (n : nat) : list string :=
  match n with
  | 0 => []
  | S _ => genSplit s sep (Nat.min n (S (String.length s)) - 1)
  end.

(** No byte of [s] is [sep]. *)
Fixpoint free_of (sep : ascii) (s : string) : bool :=
  match s with
  | EmptyString => true
  | String c rest => if decide (c = sep) then false else free_of sep rest
  end.

(** [%v] of a byte slice: the bytes in decimal between brackets. *)
Definition fmt_bytes (b : string) : string :=
  "[" +:+ String.concat " " (map (λ c, pretty (nat_of_ascii c)) (list_ascii_of_string b)) +:+ "]".

End Str.

(** ** Data model *)

(** A Go [error] value that is not nil, by its message. *)
Definition error := string.

(** [json.RawMessage]: the undecoded bytes of the payload. *)
Definition RawMessage := string.

(** [type Message struct]: the envelope exchanged with the relay. *)
Record Message := {
  Type_ : string;
  Payload : RawMessage;
}.

Global Instance Message_eq_dec : EqDecision Message.
Proof. solve_decision. Defined.

(** [%+v] of a [Message]. *)
Definition fmt_Message (m : Message) : string :=
  "{Type:" +:+ Type_ m +:+ " Payload:" +:+ Str.fmt_bytes (Payload m) +:+ "}".

(** [webrtc.SessionDescription] and [webrtc.ICECandidateInit]: produced and
    consumed by the negotiation collaborator; main.go only reads [SDP]. *)
Inductive SDPType := SDPTypeUnset | SDPTypeOffer | SDPTypePranswer | SDPTypeAnswer | SDPTypeRollback.

Record SessionDescription := {
  sdType : SDPType;
  SDP : string;
}.

Record ICECandidateInit := {
  Candidate : string;
  SDPMid : option string;
  SDPMLineIndex : option nat;
  UsernameFragment : option string;
}.

(** Pointers to the collaborator's objects: the index of the object in the
    heap of the [World] below. *)
Definition PCRef := nat.
Definition DCRef := nat.

(** [type Client struct].  The field [conn] is the one websocket connection
    of the process; what is written to it is in the trace. *)
Record Client := {
  peerID : string;
  peerConns : gmap string PCRef;
  dataChannels : gmap string DCRef;
}.

(** The anonymous payload structs of [handleIncomingMessages]. *)
Module registeredPayload.
Record t := { PeerID : string }.
Definition zero : t := {| PeerID := "" |}.
End registeredPayload.

Module offerPayload.
Record t := { Offer : SessionDescription; Source : string }.
End offerPayload.

Module answerPayload.
Record t := { Answer : SessionDescription; Source : string }.
End answerPayload.

Module candidatePayload.
Record t := { Candidate : ICECandidateInit; Source : string }.
End candidatePayload.

(** The function literals that main.go registers as callbacks, each with
    the variables it captures. *)
Inductive OnOpenHandler :=
  | setupDataChannel_onOpen (dataChannel : DCRef) (peerID : string).
Inductive OnMessageHandler :=
  | setupDataChannel_onMessage (peerID : string).
Inductive OnDataChannelHandler :=
  | handleOffer_onDataChannel (sourcePeerID : string).

(** What a [*webrtc.DataChannel] and a [*webrtc.PeerConnection] hold as far
    as main.go can tell: the registered callbacks, and what was applied. *)
Record DataChannel := {
  label : string;
  onOpen : option OnOpenHandler;
  onMessage : option OnMessageHandler;
}.

Record PeerConnection := {
  onDataChannel : option OnDataChannelHandler;
  localDescription : option SessionDescription;
  remoteDescription : option SessionDescription;
  iceCandidates : list ICECandidateInit;
}.

Definition newPeerConnection : PeerConnection :=
  {| onDataChannel := None; localDescription := None;
     remoteDescription := None; iceCandidates := [] |}.

Definition newDataChannel (l : string) : DataChannel :=
  {| label := l; onOpen := None; onMessage := None |}.

(** Everything the process does that can be seen from outside, in order. *)
Inductive Event :=
  | EvLog (line : string)
  | EvPrint (text : string)
  | EvWriteJSON (msg : Message) (err : option error)
  | EvNewPeerConnection (res : PCRef + error)
  | EvCreateDataChannel (pc : PCRef) (l : string) (res : DCRef + error)
  | EvCreateOffer (pc : PCRef) (res : SessionDescription + error)
  | EvCreateAnswer (pc : PCRef) (res : SessionDescription + error)
  | EvSetLocalDescription (pc : PCRef) (d : SessionDescription) (err : option error)
  | EvSetRemoteDescription (pc : PCRef) (d : SessionDescription) (err : option error)
  | EvAddICECandidate (pc : PCRef) (c : ICECandidateInit) (err : option error)
  | EvSendText (dc : DCRef) (text : string).

(** The state all flows of control share: the client, the collaborator's
    objects, and the trace (oldest event first). *)
Record World := {
  client : Client;
  peerConnections : list PeerConnection;
  channels : list DataChannel;
  trace : list Event;
}.

(** [NewClient] after a successful dial: both maps made, nothing else. *)
Definition NewClient : World :=
  {| client := {| peerID := ""; peerConns := ∅; dataChannels := ∅ |};
     peerConnections := []; channels := []; trace := [] |}.

(** The collaborators.  Each field answers one call: whether it fails and
    what it returns.  The answer may depend on the whole world, which
    includes the trace of every earlier call. *)
Record Env := {
  NewPeerConnection_err : World → option error;
  CreateDataChannel_err : World → PCRef → string → option error;
  CreateOffer_res : World → PCRef → SessionDescription + error;
  CreateAnswer_res : World → PCRef → SessionDescription + error;
  SetLocalDescription_err : World → PCRef → SessionDescription → option error;
  SetRemoteDescription_err : World → PCRef → SessionDescription → option error;
  AddICECandidate_err : World → PCRef → ICECandidateInit → option error;
  WriteJSON_err : World → Message → option error;
  (** [json.Unmarshal(raw, &payload)] on a zero payload: the payload as it
      is left, and the error. *)
  Unmarshal_registered : RawMessage → registeredPayload.t * option error;
  Unmarshal_offer : RawMessage → offerPayload.t * option error;
  Unmarshal_answer : RawMessage → answerPayload.t * option error;
  Unmarshal_candidate : RawMessage → candidatePayload.t * option error;
}.


(** ** The state monad of the methods

    A method of [*Client] reads and writes the shared world and returns a
    value.  Each loop body and each callback below runs to its end before
    the next one starts: the interleaving of the goroutines is at that
    grain, and data races inside one body are outside this model. *)

Definition M (A : Type) : Type := World → A * World.

Global Instance M_ret : MRet M := λ A a w, (a, w).
Global Instance M_bind : MBind M := λ A B k m w, let '(a, w') := m w in k a w'.

Definition run {A} (m : M A) (w : World) : World := (m w).2.
Definition result {A} (m : M A) (w : World) : A := (m w).1.

(** Field updates of the world and of the client. *)
Definition set_trace (t : list Event) (w : World) : World :=
  {| client := client w; peerConnections := peerConnections w;
     channels := channels w; trace := t |}.
Definition set_client (c : Client) (w : World) : World :=
  {| client := c; peerConnections := peerConnections w;
     channels := channels w; trace := trace w |}.
Definition set_peerConnections (l : list PeerConnection) (w : World) : World :=
  {| client := client w; peerConnections := l;
     channels := channels w; trace := trace w |}.
Definition set_channels (l : list DataChannel) (w : World) : World :=
  {| client := client w; peerConnections := peerConnections w;
     channels := l; trace := trace w |}.

(** What a loop body tells its loop: go on, return, or a run-time panic. *)
Inductive Ctl := Continue | Return | Panic (reason : string).

(** What [c.conn.ReadJSON(&msg)] gives: a message, or an error together with
    the verdict of [websocket.IsUnexpectedCloseError] on it.  An error is
    returned when the connection is closed and when the frame read is not
    the JSON encoding of a [Message]. *)
Inductive ReadResult :=
  | ReadOk (msg : Message)
  | ReadErr (unexpectedClose : bool) (err : error).

Section Methods.

Context (env : Env).

(** *** Calls on the collaborators *)

Definition emit (e : Event) : M unit :=
  λ w, (tt, set_trace (trace w ++ [e]) w).

(** [log.Println] and [log.Printf]: one line, without its time stamp. *)
Definition log_Print (line : string) : M unit := emit (EvLog line).

(** [fmt.Print], [fmt.Printf] and [fmt.Println]: the text as written. *)
Definition fmt_Print (text : string) : M unit := emit (EvPrint text).
Definition fmt_Println (text : string) : M unit := emit (EvPrint (text +:+ Str.newline)).

Definition conn_WriteJSON (msg : Message) : M (option error) :=
  λ w, let err := WriteJSON_err env w msg in
       (err, set_trace (trace w ++ [EvWriteJSON msg err]) w).

Definition webrtc_NewPeerConnection : M (PCRef + error) :=
  λ w, match NewPeerConnection_err env w with
       | Some err => (inr err, set_trace (trace w ++ [EvNewPeerConnection (inr err)]) w)
       | None =>
           let pc := length (peerConnections w) in
           (inl pc, set_trace (trace w ++ [EvNewPeerConnection (inl pc)])
                      (set_peerConnections (peerConnections w ++ [newPeerConnection]) w))
       end.

Definition pc_CreateDataChannel (pc : PCRef) (l : string) : M (DCRef + error) :=
  λ w, match CreateDataChannel_err env w pc l with
       | Some err => (inr err, set_trace (trace w ++ [EvCreateDataChannel pc l (inr err)]) w)
       | None =>
           let dc := length (channels w) in
           (inl dc, set_trace (trace w ++ [EvCreateDataChannel pc l (inl dc)])
                      (set_channels (channels w ++ [newDataChannel l]) w))
       end.

Definition pc_CreateOffer (pc : PCRef) : M (SessionDescription + error) :=
  λ w, let res := CreateOffer_res env w pc in
       (res, set_trace (trace w ++ [EvCreateOffer pc res]) w).

Definition pc_CreateAnswer (pc : PCRef) : M (SessionDescription + error) :=
  λ w, let res := CreateAnswer_res env w pc in
       (res, set_trace (trace w ++ [EvCreateAnswer pc res]) w).

Definition pc_SetLocalDescription (pc : PCRef) (d : SessionDescription) : M (option error) :=
  λ w, let err := SetLocalDescription_err env w pc d in
       (err, set_trace (trace w ++ [EvSetLocalDescription pc d err])
               (match err with
                | Some _ => w
                | None => set_peerConnections
                            (alter (λ o, {| onDataChannel := onDataChannel o;
                                            localDescription := Some d;
                                            remoteDescription := remoteDescription o;
                                            iceCandidates := iceCandidates o |})
                                   pc (peerConnections w)) w
                end)).

Definition pc_SetRemoteDescription (pc : PCRef) (d : SessionDescription) : M (option error) :=
  λ w, let err := SetRemoteDescription_err env w pc d in
       (err, set_trace (trace w ++ [EvSetRemoteDescription pc d err])
               (match err with
                | Some _ => w
                | None => set_peerConnections
                            (alter (λ o, {| onDataChannel := onDataChannel o;
                                            localDescription := localDescription o;
                                            remoteDescription := Some d;
                                            iceCandidates := iceCandidates o |})
                                   pc (peerConnections w)) w
                end)).

Definition pc_AddICECandidate (pc : PCRef) (c : ICECandidateInit) : M (option error) :=
  λ w, let err := AddICECandidate_err env w pc c in
       (err, set_trace (trace w ++ [EvAddICECandidate pc c err])
               (match err with
                | Some _ => w
                | None => set_peerConnections
                            (alter (λ o, {| onDataChannel := onDataChannel o;
                                            localDescription := localDescription o;
                                            remoteDescription := remoteDescription o;
                                            iceCandidates := iceCandidates o ++ [c] |})
                                   pc (peerConnections w)) w
                end)).

Definition pc_OnDataChannel (pc : PCRef) (h : OnDataChannelHandler) : M unit :=
  λ w, (tt, set_peerConnections
              (alter (λ o, {| onDataChannel := Some h;
                              localDescription := localDescription o;
                              remoteDescription := remoteDescription o;
                              iceCandidates := iceCandidates o |})
                     pc (peerConnections w)) w).

Definition dc_OnOpen (dc : DCRef) (h : OnOpenHandler) : M unit :=
  λ w, (tt, set_channels
              (alter (λ o, {| label := label o; onOpen := Some h; onMessage := onMessage o |})
                     dc (channels w)) w).

Definition dc_OnMessage (dc : DCRef) (h : OnMessageHandler) : M unit :=
  λ w, (tt, set_channels
              (alter (λ o, {| label := label o; onOpen := onOpen o; onMessage := Some h |})
                     dc (channels w)) w).

(** [dataChannel.SendText(message)]: main.go drops its error. *)
Definition dc_SendText (dc : DCRef) (text : string) : M unit := emit (EvSendText dc text).

(** *** Reads and writes of the client's fields *)

Definition get_peerConn (key : string) : M (option PCRef) :=
  λ w, (peerConns (client w) !! key, w).
Definition get_dataChannel (key : string) : M (option DCRef) :=
  λ w, (dataChannels (client w) !! key, w).
Definition get_peerID : M string :=
  λ w, (peerID (client w), w).

Definition store_peerConn (key : string) (pc : PCRef) : M unit :=
  λ w, (tt, set_client {| peerID := peerID (client w);
                          peerConns := <[key := pc]> (peerConns (client w));
                          dataChannels := dataChannels (client w) |} w).
Definition store_dataChannel (key : string) (dc : DCRef) : M unit :=
  λ w, (tt, set_client {| peerID := peerID (client w);
                          peerConns := peerConns (client w);
                          dataChannels := <[key := dc]> (dataChannels (client w)) |} w).
Definition store_peerID (id : string) : M unit :=
  λ w, (tt, set_client {| peerID := id;
                          peerConns := peerConns (client w);
                          dataChannels := dataChannels (client w) |} w).

(** *** The methods of [*Client] *)

(** The envelopes main.go builds: the payload is formatted with [%s], the
    peer identifier between quotes and the SDP as it is. *)
Definition payload_of (field target sdp : string) : RawMessage :=
  "{" +:+ Str.dquote +:+ "target" +:+ Str.dquote +:+ ":" +:+ Str.dquote +:+ target +:+ Str.dquote
      +:+ "," +:+ Str.dquote +:+ field +:+ Str.dquote +:+ ":" +:+ sdp +:+ "}".

Definition registerMsg : Message := {| Type_ := "register"; Payload := "" |}.
Definition offerMsg (peerID : string) (offer : SessionDescription) : Message :=
  {| Type_ := "offer"; Payload := payload_of "offer" peerID (SDP offer) |}.
Definition answerMsg (sourcePeerID : string) (answer : SessionDescription) : Message :=
  {| Type_ := "answer"; Payload := payload_of "answer" sourcePeerID (SDP answer) |}.

Definition Register : M unit :=
  log_Print "Sending register message";;
  err ← conn_WriteJSON registerMsg;
  match err with
  | Some e => log_Print ("Error sending register message: " +:+ e)
  | None => log_Print "Register message sent successfully"
  end.

Definition setupDataChannel (dataChannel : DCRef) (peerID : string) : M unit :=
  dc_OnOpen dataChannel (setupDataChannel_onOpen dataChannel peerID);;
  dc_OnMessage dataChannel (setupDataChannel_onMessage peerID).

Definition ConnectToPeer (peerID : string) : M (option error) :=
  r ← webrtc_NewPeerConnection;
  match r with
  | inr err => mret (Some err)
  | inl peerConnection =>
      r ← pc_CreateDataChannel peerConnection "data";
      match r with
      | inr err => mret (Some err)
      | inl dataChannel =>
          setupDataChannel dataChannel peerID;;
          r ← pc_CreateOffer peerConnection;
          match r with
          | inr err => mret (Some err)
          | inl offer =>
              err ← pc_SetLocalDescription peerConnection offer;
              match err with
              | Some err => mret (Some err)
              | None =>
                  store_peerConn peerID peerConnection;;
                  conn_WriteJSON (offerMsg peerID offer);;
                  mret None
              end
          end
      end
  end.

Definition SendMessage (peerID message : string) : M unit :=
  o ← get_dataChannel peerID;
  match o with
  | Some dataChannel =>
      dc_SendText dataChannel message;;
      fmt_Print ("Message sent to " +:+ peerID +:+ ": " +:+ message +:+ Str.newline)
  | None =>
      fmt_Print ("No open data channel to peer " +:+ peerID +:+ Str.newline)
  end.

Definition handleOffer (offer : SessionDescription) (sourcePeerID : string) : M unit :=
  r ← webrtc_NewPeerConnection;
  match r with
  | inr err => log_Print ("Error creating peer connection: " +:+ err)
  | inl peerConnection =>
      pc_OnDataChannel peerConnection (handleOffer_onDataChannel sourcePeerID);;
      err ← pc_SetRemoteDescription peerConnection offer;
      match err with
      | Some err => log_Print ("Error setting remote description: " +:+ err)
      | None =>
          r ← pc_CreateAnswer peerConnection;
          match r with
          | inr err => log_Print ("Error creating answer: " +:+ err)
          | inl answer =>
              err ← pc_SetLocalDescription peerConnection answer;
              match err with
              | Some err => log_Print ("Error setting local description: " +:+ err)
              | None =>
                  store_peerConn sourcePeerID peerConnection;;
                  conn_WriteJSON (answerMsg sourcePeerID answer);;
                  mret tt
              end
          end
      end
  end.

Definition handleAnswer (answer : SessionDescription) (sourcePeerID : string) : M unit :=
  o ← get_peerConn sourcePeerID;
  match o with
  | Some peerConnection => pc_SetRemoteDescription peerConnection answer;; mret tt
  | None => mret tt
  end.

Definition handleICECandidate (candidate : ICECandidateInit) (sourcePeerID : string) : M unit :=
  o ← get_peerConn sourcePeerID;
  match o with
  | Some peerConnection => pc_AddICECandidate peerConnection candidate;; mret tt
  | None => mret tt
  end.

(** *** The dispatch loop *)

(** One turn of the [for] loop of [handleIncomingMessages], given what
    [ReadJSON] returned.  The [switch] has no default: a message of another
    type falls through to the next turn. *)
Definition handleIncomingMessages_body (r : ReadResult) : M Ctl :=
  match r with
  | ReadErr unexpectedClose err =>
      (if unexpectedClose
       then log_Print ("WebSocket connection closed unexpectedly: " +:+ err)
       else log_Print ("Error reading message: " +:+ err));;
      mret Return
  | ReadOk msg =>
      log_Print ("Received message type: " +:+ Type_ msg);;
      log_Print ("Full message: " +:+ fmt_Message msg);;
      if decide (Type_ msg = "registered") then
        let payload := (Unmarshal_registered env (Payload msg)).1 in
        match (Unmarshal_registered env (Payload msg)).2 with
        | Some err =>
            log_Print ("Error unmarshalling registered payload: " +:+ err);;
            mret Continue
        | None =>
            if decide (registeredPayload.PeerID payload = "") then
              log_Print "Received empty peer ID";;
              mret Continue
            else
              store_peerID (registeredPayload.PeerID payload);;
              id ← get_peerID;
              log_Print ("Registered with peer ID: '" +:+ id +:+ "'");;
              fmt_Print ("Registered with peer ID: " +:+ id +:+ Str.newline);;
              mret Continue
        end
      else if decide (Type_ msg = "offer") then
        let payload := (Unmarshal_offer env (Payload msg)).1 in
        handleOffer (offerPayload.Offer payload) (offerPayload.Source payload);;
        mret Continue
      else if decide (Type_ msg = "answer") then
        let payload := (Unmarshal_answer env (Payload msg)).1 in
        handleAnswer (answerPayload.Answer payload) (answerPayload.Source payload);;
        mret Continue
      else if decide (Type_ msg = "ice-candidate") then
        let payload := (Unmarshal_candidate env (Payload msg)).1 in
        handleICECandidate (candidatePayload.Candidate payload) (candidatePayload.Source payload);;
        mret Continue
      else mret Continue
  end.

(** The loop on the reads that have arrived so far.  [Continue] at the end
    of the list means the goroutine is blocked in [ReadJSON]; [Return]
    means the function has returned and nothing reads the relay any more. *)
Fixpoint handleIncomingMessages (reads : list ReadResult) : M Ctl :=
  match reads with
  | [] => mret Continue
  | r :: rest =>
      c ← handleIncomingMessages_body r;
      match c with
      | Continue => handleIncomingMessages rest
      | _ => mret c
      end
  end.

(** *** The callbacks, run when the collaborator fires them *)

Definition run_OnOpenHandler (h : OnOpenHandler) : M unit :=
  match h with
  | setupDataChannel_onOpen dataChannel peerID =>
      fmt_Print ("Data channel opened with peer: " +:+ peerID +:+ Str.newline);;
      store_dataChannel peerID dataChannel
  end.

Definition run_OnMessageHandler (h : OnMessageHandler) (data : string) : M unit :=
  match h with
  | setupDataChannel_onMessage peerID =>
      fmt_Print ("Received message from " +:+ peerID +:+ ": " +:+ data +:+ Str.newline)
  end.

Definition run_OnDataChannelHandler (h : OnDataChannelHandler) (dataChannel : DCRef) : M unit :=
  match h with
  | handleOffer_onDataChannel sourcePeerID => setupDataChannel dataChannel sourcePeerID
  end.

(** The collaborator reports channel [dc] open: the handler last given to
    [OnOpen] runs, if there is one. *)
Definition channelOpened (dc : DCRef) : M unit :=
  λ w, match channels w !! dc with
       | Some o => match onOpen o with
                   | Some h => run_OnOpenHandler h w
                   | None => (tt, w)
                   end
       | None => (tt, w)
       end.

(** A message arrives on channel [dc]. *)
Definition channelMessage (dc : DCRef) (data : string) : M unit :=
  λ w, match channels w !! dc with
       | Some o => match onMessage o with
                   | Some h => run_OnMessageHandler h data w
                   | None => (tt, w)
                   end
       | None => (tt, w)
       end.

(** The remote side opened a channel on connection [pc]: the collaborator
    makes the channel object and hands it to the [OnDataChannel] handler. *)
Definition channelAnnounced (pc : PCRef) (l : string) : M unit :=
  λ w, match peerConnections w !! pc with
       | Some o => match onDataChannel o with
                   | Some h =>
                       run_OnDataChannelHandler h (length (channels w))
                         (set_channels (channels w ++ [newDataChannel l]) w)
                   | None => (tt, w)
                   end
       | None => (tt, w)
       end.

(** *** The command loop *)

(** One turn of the [for] loop of [main] on the line the scanner read. *)
Definition main_body (input : string) : M Ctl :=
  fmt_Print "> ";;
  let parts := Str.SplitN input " " 3 in
  match parts !! 0 with
  | None => mret (Panic "index out of range")
  | Some cmd =>
      if decide (cmd = "register") then
        Register;;
        mret Continue
      else if decide (cmd = "connect") then
        if decide (length parts < 2) then
          fmt_Println "Usage: connect <peerId>";;
          mret Continue
        else
          match parts !! 1 with
          | None => mret (Panic "index out of range")
          | Some p =>
              err ← ConnectToPeer p;
              match err with
              | Some err => fmt_Println ("Error connecting to peer: " +:+ err)
              | None => mret tt
              end;;
              mret Continue
          end
      else if decide (cmd = "send") then
        if decide (length parts < 3) then
          fmt_Println "Usage: send <peerId> <message>";;
          mret Continue
        else
          match parts !! 1, parts !! 2 with
          | Some p, Some m =>
              SendMessage p m;;
              mret Continue
          | _, _ => mret (Panic "index out of range")
          end
      else if decide (cmd = "exit") then
        mret Return
      else
        fmt_Println "Unknown command. Available commands: register, connect, send, exit";;
        mret Continue
  end.

(** *** The process *)

(** What can happen to the running process. *)
Inductive Input :=
  | Stdin (line : string)
  | Relay (r : ReadResult)
  | ChannelOpened (dc : DCRef)
  | ChannelMessage (dc : DCRef) (data : string)
  | ChannelAnnounced (pc : PCRef) (l : string).

Inductive Status := Running | Exited | Panicked (reason : string).

(** [dispatching] tells whether the goroutine of [handleIncomingMessages]
    is still in its loop. *)
Record Process := {
  world : World;
  status : Status;
  dispatching : bool;
}.

Definition status_after (c : Ctl) : Status :=
  match c with
  | Continue => Running
  | Return => Exited
  | Panic reason => Panicked reason
  end.

(** [main] up to its loop, the dial having succeeded. *)
Definition start : Process :=
  {| world := run (fmt_Println "P2P CLI Client";;
                   fmt_Println "Available commands: register, connect <peerId>, send <peerId> <message>, exit")
                  NewClient;
     status := Running;
     dispatching := true |}.

(** Each input is handled to its end before the next one.  In main.go the
    command loop, the dispatcher and the callbacks of the collaborator run
    without synchronisation; what their interleaving inside one body can
    do, races on the maps and on the connection included, is outside this
    model. *)
Definition step (i : Input) (p : Process) : Process :=
  match status p with
  | Running =>
      match i with
      | Stdin line =>
          {| world := run (main_body line) (world p);
             status := status_after (result (main_body line) (world p));
             dispatching := dispatching p |}
      | Relay r =>
          if dispatching p then
            {| world := run (handleIncomingMessages_body r) (world p);
               status := match result (handleIncomingMessages_body r) (world p) with
                         | Panic reason => Panicked reason
                         | _ => Running
                         end;
               dispatching := match result (handleIncomingMessages_body r) (world p) with
                              | Continue => true
                              | _ => false
                              end |}
          else p
      | ChannelOpened dc =>
          {| world := run (channelOpened dc) (world p);
             status := Running; dispatching := dispatching p |}
      | ChannelMessage dc data =>
          {| world := run (channelMessage dc data) (world p);
             status := Running; dispatching := dispatching p |}
      | ChannelAnnounced pc l =>
          {| world := run (channelAnnounced pc l) (world p);
             status := Running; dispatching := dispatching p |}
      end
  | _ => p
  end.

Fixpoint exec (inputs : list Input) (p : Process) : Process :=
  match inputs with
  | [] => p
  | i :: rest => exec rest (step i p)
  end.

End Methods.

(** ** Reading a trace *)

(** The envelopes handed to the relay connection, in order. *)
Definition written (t : list Event) : list Message :=
  flat_map (λ e, match e with EvWriteJSON msg _ => [msg] | _ => [] end) t.

(** The log lines and the text printed for the operator. *)
Definition logged (t : list Event) : list string :=
  flat_map (λ e, match e with EvLog line => [line] | _ => [] end) t.
Definition printed (t : list Event) : list string :=
  flat_map (λ e, match e with EvPrint text => [text] | _ => [] end) t.

(** The calls of [SendText]: the channel and the text. *)
Definition sentText (t : list Event) : list (DCRef * string) :=
  flat_map (λ e, match e with EvSendText dc text => [(dc, text)] | _ => [] end) t.

(** A call on the negotiation collaborator that returned an error. *)
Definition negotiation_failed (e : Event) : bool :=
  match e with
  | EvNewPeerConnection (inr _) => true
  | EvCreateDataChannel _ _ (inr _) => true
  | EvCreateOffer _ (inr _) => true
  | EvCreateAnswer _ (inr _) => true
  | EvSetLocalDescription _ _ (Some _) => true
  | EvSetRemoteDescription _ _ (Some _) => true
  | EvAddICECandidate _ _ (Some _) => true
  | _ => false
  end.

(** The events between two worlds of one run. *)
Definition since (w w' : World) : list Event :=
  drop (length (trace w)) (trace w').

(** The world after the two lines every received message is logged with. *)
Definition received (msg : Message) (w : World) : World :=
  set_trace (trace w ++ [EvLog ("Received message type: " +:+ Type_ msg);
                         EvLog ("Full message: " +:+ fmt_Message msg)]) w.

(** The peer an [offer] envelope names as its source, as
    [handleIncomingMessages] decodes it. *)
Definition offer_source (env : Env) (msg : Message) : string :=
  offerPayload.Source (Unmarshal_offer env (Payload msg)).1.

(** ** A collaborator for running the model

    Every negotiation call and every write succeeds; an offer or answer is
    built with a fixed SDP; a payload decodes when it is one of the few
    canonical texts below. *)

Definition sampleOffer : SessionDescription := {| sdType := SDPTypeOffer; SDP := "v=0" |}.
Definition sampleAnswer : SessionDescription := {| sdType := SDPTypeAnswer; SDP := "v=0" |}.
Definition zeroDescription : SessionDescription := {| sdType := SDPTypeUnset; SDP := "" |}.
Definition zeroCandidate : ICECandidateInit :=
  {| Candidate := ""; SDPMid := None; SDPMLineIndex := None; UsernameFragment := None |}.

(** A JSON string, and the object with one string member. *)
Definition quoted (s : string) : string := Str.dquote +:+ s +:+ Str.dquote.
Definition obj1 (k v : string) : RawMessage :=
  "{" +:+ quoted k +:+ ":" +:+ quoted v +:+ "}".

(** An offer payload whose [source] is a number: encoding/json decodes the
    [offer] member, leaves [Source] empty and returns a type error. *)
Definition badSourceOffer : RawMessage :=
  "{" +:+ quoted "offer" +:+ ":{" +:+ quoted "type" +:+ ":" +:+ quoted "offer" +:+ ","
      +:+ quoted "sdp" +:+ ":" +:+ quoted "v=0" +:+ "}," +:+ quoted "source" +:+ ":5}".

Definition happy : Env :=
  {| NewPeerConnection_err := λ _, None;
     CreateDataChannel_err := λ _ _ _, None;
     CreateOffer_res := λ _ _, inl sampleOffer;
     CreateAnswer_res := λ _ _, inl sampleAnswer;
     SetLocalDescription_err := λ _ _ _, None;
     SetRemoteDescription_err := λ _ _ _, None;
     AddICECandidate_err := λ _ _ _, None;
     WriteJSON_err := λ _ _, None;
     Unmarshal_registered := λ raw,
       if decide (raw = obj1 "peerId" "abc") then ({| registeredPayload.PeerID := "abc" |}, None)
       else if decide (raw = obj1 "peerId" "") then ({| registeredPayload.PeerID := "" |}, None)
       else ({| registeredPayload.PeerID := "" |}, Some "json: cannot unmarshal");
     Unmarshal_offer := λ raw,
       if decide (raw = obj1 "source" "p") then
         ({| offerPayload.Offer := zeroDescription; offerPayload.Source := "p" |}, None)
       else if decide (raw = obj1 "source" "q") then
         ({| offerPayload.Offer := zeroDescription; offerPayload.Source := "q" |}, None)
       else if decide (raw = badSourceOffer) then
         ({| offerPayload.Offer := sampleOffer; offerPayload.Source := "" |},
          Some "json: cannot unmarshal number into Go struct field .source of type string")
       else ({| offerPayload.Offer := zeroDescription; offerPayload.Source := "" |},
             Some "json: cannot unmarshal");
     Unmarshal_answer := λ raw,
       if decide (raw = obj1 "source" "p") then
         ({| answerPayload.Answer := zeroDescription; answerPayload.Source := "p" |}, None)
       else ({| answerPayload.Answer := zeroDescription; answerPayload.Source := "" |},
             Some "json: cannot unmarshal");
     Unmarshal_candidate := λ raw,
       if decide (raw = obj1 "source" "p") then
         ({| candidatePayload.Candidate := zeroCandidate; candidatePayload.Source := "p" |}, None)
       else ({| candidatePayload.Candidate := zeroCandidate; candidatePayload.Source := "" |},
             Some "json: cannot unmarshal") |}.

(** The same collaborator with a connection factory that fails. *)
Definition failing : Env :=
  {| NewPeerConnection_err := λ _, Some "no connection";
     CreateDataChannel_err := CreateDataChannel_err happy;
     CreateOffer_res := CreateOffer_res happy;
     CreateAnswer_res := CreateAnswer_res happy;
     SetLocalDescription_err := SetLocalDescription_err happy;
     SetRemoteDescription_err := SetRemoteDescription_err happy;
     AddICECandidate_err := AddICECandidate_err happy;
     WriteJSON_err := WriteJSON_err happy;
     Unmarshal_registered := Unmarshal_registered happy;
     Unmarshal_offer := Unmarshal_offer happy;
     Unmarshal_answer := Unmarshal_answer happy;
     Unmarshal_candidate := Unmarshal_candidate happy |}.

(** Envelopes the relay may deliver, for those runs. *)
Definition registeredAbc : Message :=
  {| Type_ := "registered"; Payload := obj1 "peerId" "abc" |}.
Definition registeredBad : Message :=
  {| Type_ := "registered"; Payload := "[]" |}.
Definition offerFrom (src : string) : Message :=
  {| Type_ := "offer"; Payload := obj1 "source" src |}.
Definition answerFrom (src : string) : Message :=
  {| Type_ := "answer"; Payload := obj1 "source" src |}.

Definition candidateFrom (src : string) : Message :=
  {| Type_ := "ice-candidate"; Payload := obj1 "source" src |}.

(** The candidate an [ice-candidate] envelope carries and the peer it names
    as its source, as [handleIncomingMessages] decodes them. *)
Definition candidate_of (env : Env) (msg : Message) : ICECandidateInit :=
  candidatePayload.Candidate (Unmarshal_candidate env (Payload msg)).1.
Definition candidate_source (env : Env) (msg : Message) : string :=
  candidatePayload.Source (Unmarshal_candidate env (Payload msg)).1.

(** No key of either map of the first client is missing in the second. *)
Definition keeps_sessions (c c' : Client) : Prop :=
  (∀ k, is_Some (peerConns c !! k) → is_Some (peerConns c' !! k))
  ∧ (∀ k, is_Some (dataChannels c !! k) → is_Some (dataChannels c' !! k)).

(** ** What the relay connection makes of an envelope

    [c.conn.WriteJSON(msg)] encodes [msg] with encoding/json before it
    sends it.  A [json.RawMessage] that is not nil is copied into the
    output only when it is a valid JSON text; otherwise the encoding fails,
    [WriteJSON] returns the error and the envelope is not sent.  The
    validity test is the scanner of encoding/json: one step per byte over a
    state and the stack of the objects and arrays that are open. *)

Module Json.

Inductive Frame := InObject | InArray.

Inductive State :=
  | BeginValue
  | BeginValueOrEmpty
  | BeginKeyOrEmpty
  | BeginKey
  | AfterKey
  | EndValue
  | InString (key : bool)
  | InStringEsc (key : bool)
  | InStringU (key : bool) (more : nat)
  | Neg
  | Zero
  | IntDigits
  | Dot
  | FracDigits
  | Exp
  | ExpSign
  | ExpDigits
  | Lit (rest : string)
  | Error.

Definition byte (c : ascii) (n : nat) : bool := Nat.eqb (nat_of_ascii c) n.
Definition between (lo hi : nat) (c : ascii) : bool :=
  Nat.leb lo (nat_of_ascii c) && Nat.leb (nat_of_ascii c) hi.

(** Space, tab, carriage return, line feed. *)
Definition is_space (c : ascii) : bool := byte c 32 || byte c 9 || byte c 13 || byte c 10.
Definition is_digit (c : ascii) : bool := between 48 57 c.
Definition is_digit19 (c : ascii) : bool := between 49 57 c.
Definition is_hex (c : ascii) : bool :=
  between 48 57 c || between 97 102 c || between 65 70 c.
(** [e] or [E]. *)
Definition is_e (c : ascii) : bool := byte c 101 || byte c 69.

(** After a complete value: a comma or the closing byte of the innermost
    open object or array; at top level only space. *)
Definition end_value (c : ascii) (stack : list Frame) : State * list Frame :=
  if is_space c then (EndValue, stack)
  else match stack with
       | InObject :: up =>
           if byte c 44 then (BeginKey, stack)
           else if byte c 125 then (EndValue, up)
           else (Error, stack)
       | InArray :: up =>
           if byte c 44 then (BeginValue, stack)
           else if byte c 93 then (EndValue, up)
           else (Error, stack)
       | [] => (Error, stack)
       end.

(** Where a value may begin: an object, an array, a string, a number or
    one of the three literals. *)
Definition begin_value (c : ascii) (stack : list Frame) : State * list Frame :=
  if is_space c then (BeginValue, stack)
  else if byte c 123 then (BeginKeyOrEmpty, InObject :: stack)
  else if byte c 91 then (BeginValueOrEmpty, InArray :: stack)
  else if byte c 34 then (InString false, stack)
  else if byte c 45 then (Neg, stack)
  else if byte c 48 then (Zero, stack)
  else if is_digit19 c then (IntDigits, stack)
  else if byte c 116 then (Lit "rue", stack)
  else if byte c 102 then (Lit "alse", stack)
  else if byte c 110 then (Lit "ull", stack)
  else (Error, stack).

Definition begin_key (c : ascii) (stack : list Frame) : State * list Frame :=
  if is_space c then (BeginKey, stack)
  else if byte c 34 then (InString true, stack)
  else (Error, stack).

Definition step (st : State * list Frame) (c : ascii) : State * list Frame :=
  let '(s, stack) := st in
  match s with
  | BeginValue => begin_value c stack
  | BeginValueOrEmpty =>
      if is_space c then (BeginValueOrEmpty, stack)
      else if byte c 93 then (EndValue, tail stack)
      else begin_value c stack
  | BeginKeyOrEmpty =>
      if is_space c then (BeginKeyOrEmpty, stack)
      else if byte c 125 then (EndValue, tail stack)
      else begin_key c stack
  | BeginKey => begin_key c stack
  | AfterKey =>
      if is_space c then (AfterKey, stack)
      else if byte c 58 then (BeginValue, stack)
      else (Error, stack)
  | EndValue => end_value c stack
  | InString key =>
      if byte c 34 then (if key then AfterKey else EndValue, stack)
      else if byte c 92 then (InStringEsc key, stack)
      else if Nat.ltb (nat_of_ascii c) 32 then (Error, stack)
      else (InString key, stack)
  | InStringEsc key =>
      if byte c 98 || byte c 102 || byte c 110 || byte c 114 || byte c 116
         || byte c 92 || byte c 47 || byte c 34
      then (InString key, stack)
      else if byte c 117 then (InStringU key 4, stack)
      else (Error, stack)
  | InStringU key todo =>
      if is_hex c then
        match todo with
        | 0 | 1 => (InString key, stack)
        | S n => (InStringU key n, stack)
        end
      else (Error, stack)
  | Neg =>
      if byte c 48 then (Zero, stack)
      else if is_digit19 c then (IntDigits, stack)
      else (Error, stack)
  | Zero =>
      if byte c 46 then (Dot, stack)
      else if is_e c then (Exp, stack)
      else end_value c stack
  | IntDigits =>
      if is_digit c then (IntDigits, stack)
      else if byte c 46 then (Dot, stack)
      else if is_e c then (Exp, stack)
      else end_value c stack
  | Dot => if is_digit c then (FracDigits, stack) else (Error, stack)
  | FracDigits =>
      if is_digit c then (FracDigits, stack)
      else if is_e c then (Exp, stack)
      else end_value c stack
  | Exp =>
      if byte c 43 || byte c 45 then (ExpSign, stack)
      else if is_digit c then (ExpDigits, stack)
      else (Error, stack)
  | ExpSign => if is_digit c then (ExpDigits, stack) else (Error, stack)
  | ExpDigits =>
      if is_digit c then (ExpDigits, stack) else end_value c stack
  | Lit rest =>
      match rest with
      | String x more =>
          if Ascii.eqb c x
          then (match more with EmptyString => EndValue | _ => Lit more end, stack)
          else (Error, stack)
      | EmptyString => (Error, stack)
      end
  | Error => (Error, stack)
  end.

Fixpoint scan (st : State * list Frame) (s : string) : State * list Frame :=
  match s with
  | EmptyString => st
  | String c rest => scan (step st c) rest
  end.

(** The end of the text: one complete value has been read. *)
Definition complete (st : State * list Frame) : bool :=
  match st with
  | (EndValue, []) | (Zero, []) | (IntDigits, []) | (FracDigits, [])
  | (ExpDigits, []) => true
  | _ => false
  end.

(** [json.Valid]. *)
Definition Valid (s : string) : bool := complete (scan (BeginValue, []) s).

(** A text that can stand between the quotes of a JSON string as it is: no
    quote, no backslash, no control byte. *)
Fixpoint plain (s : string) : bool :=
  match s with
  | EmptyString => true
  | String c rest =>
      negb (byte c 34) && negb (byte c 92) && negb (Nat.ltb (nat_of_ascii c) 32) && plain rest
  end.

End Json.

(** The calls of [WriteJSON] with what they returned, and the envelopes
    whose call returned no error: those are the ones the relay gets. *)
Definition attempts (t : list Event) : list (Message * option error) :=
  flat_map (λ e, match e with EvWriteJSON msg err => [(msg, err)] | _ => [] end) t.
Definition delivered (t : list Event) : list Message :=
  flat_map (λ e, match e with EvWriteJSON msg None => [msg] | _ => [] end) t.

(** What a write records is what the connection answered. *)
Definition write_answered (env : Env) (e : Event) : Prop :=
  match e with
  | EvWriteJSON msg err => ∃ w, err = WriteJSON_err env w msg
  | _ => True
  end.

(** A relay connection that encodes as encoding/json does: a write of an
    envelope whose payload is not nil and not valid JSON returns an error. *)
Definition marshals (env : Env) : Prop :=
  ∀ w msg, Payload msg ≠ "" → Json.Valid (Payload msg) = false →
           is_Some (WriteJSON_err env w msg).

(** The collaborator of [happy] behind such a connection; its descriptions
    carry an SDP text, which begins with its version line. *)
Definition marshalling : Env :=
  {| NewPeerConnection_err := NewPeerConnection_err happy;
     CreateDataChannel_err := CreateDataChannel_err happy;
     CreateOffer_res := CreateOffer_res happy;
     CreateAnswer_res := CreateAnswer_res happy;
     SetLocalDescription_err := SetLocalDescription_err happy;
     SetRemoteDescription_err := SetRemoteDescription_err happy;
     AddICECandidate_err := AddICECandidate_err happy;
     WriteJSON_err := λ _ msg,
       if decide (Payload msg = "") then None
       else if Json.Valid (Payload msg) then None
       else Some "json: error calling MarshalJSON for type json.RawMessage";
     Unmarshal_registered := Unmarshal_registered happy;
     Unmarshal_offer := Unmarshal_offer happy;
     Unmarshal_answer := Unmarshal_answer happy;
     Unmarshal_candidate := Unmarshal_candidate happy |}.

(** * Properties *)

(** ** Traces and heaps *)

Lemma since_app (w w' : World) (evs : list Event) :
  trace w' = trace w ++ evs → since w w' = evs.
Proof. intros H. unfold since. rewrite H. apply drop_app_length. Qed.

Lemma since_refl (w : World) : since w w = [].
Proof. unfold since. apply drop_all. Qed.

Lemma alter_last {A} (f : A → A) (l : list A) (x : A) :
  alter f (length l) (l ++ [x]) = l ++ [f x].
Proof. induction l as [|a l IH]; simpl; [done | by f_equal]. Qed.

Lemma lookup_last {A} (l : list A) (x : A) : (l ++ [x]) !! length l = Some x.
Proof. induction l as [|a l IH]; simpl; done. Qed.

(** ** Splitting a command line *)

Lemma append_cons (c : ascii) (s t : string) : String c s +:+ t = String c (s +:+ t).
Proof. reflexivity. Qed.

Lemma length_append (s t : string) :
  String.length (s +:+ t) = String.length s + String.length t.
Proof. induction s as [|c s IH]; [done|]. rewrite append_cons. simpl. by rewrite IH. Qed.

(** The first separator after a prefix that has none is where [cut] cuts. *)
Lemma cut_free (sep : ascii) (a rest : string) :
  Str.free_of sep a = true → Str.cut (a +:+ String sep rest) sep = Some (a, rest).
Proof.
  induction a as [|c a IH]; intros Hfree.
  - change (EmptyString +:+ String sep rest) with (String sep rest).
    simpl. by rewrite decide_True.
  - rewrite append_cons. simpl in *. case_decide; [done|].
    by rewrite IH.
Qed.

Lemma genSplit_length (s : string) (sep : ascii) (cuts : nat) :
  length (Str.genSplit s sep cuts) ≤ S cuts.
Proof.
  revert s. induction cuts as [|n IH]; intros s; simpl; [lia|].
  destruct (Str.cut s sep) as [[a rest]|]; simpl; [|lia].
  specialize (IH rest). lia.
Qed.

Lemma SplitN_length (s : string) (sep : ascii) (n : nat) :
  length (Str.SplitN s sep n) ≤ n.
Proof.
  unfold Str.SplitN. destruct n as [|n]; [done|].
  pose proof (genSplit_length s sep (S n `min` S (String.length s) - 1)). lia.
Qed.

(** A line with two separators in front of its third part splits in
    three, whatever the third part holds. *)
Lemma SplitN_three (sep : ascii) (a b c : string) :
  Str.free_of sep a = true → Str.free_of sep b = true →
  Str.SplitN (a +:+ String sep (b +:+ String sep c)) sep 3 = [a; b; c].
Proof.
  intros Ha Hb. unfold Str.SplitN.
  replace (3 `min` S (String.length (a +:+ String sep (b +:+ String sep c))) - 1) with 2.
  - simpl. rewrite (cut_free _ _ _ Ha). by rewrite (cut_free _ _ _ Hb).
  - assert (2 ≤ String.length (a +:+ String sep (b +:+ String sep c))) as Hlen.
    { rewrite length_append. simpl. rewrite length_append. simpl. lia. }
    lia.
Qed.

Lemma send_line_parts (P M : string) :
  Str.free_of " " P = true →
  Str.SplitN ("send " +:+ P +:+ " " +:+ M) " " 3 = ["send"; P; M].
Proof.
  intros HP.
  change ("send " +:+ P +:+ " " +:+ M) with ("send" +:+ String " " (P +:+ String " " M)).
  by apply SplitN_three.
Qed.

(** Case analysis on the next answer of the collaborator in the goal. *)
Ltac ask_env :=
  match goal with
  | |- context [NewPeerConnection_err ?e ?w] =>
      destruct (NewPeerConnection_err e w) eqn:?
  | |- context [CreateDataChannel_err ?e ?w ?p ?l] =>
      destruct (CreateDataChannel_err e w p l) eqn:?
  | |- context [CreateOffer_res ?e ?w ?p] =>
      destruct (CreateOffer_res e w p) eqn:?
  | |- context [CreateAnswer_res ?e ?w ?p] =>
      destruct (CreateAnswer_res e w p) eqn:?
  | |- context [SetLocalDescription_err ?e ?w ?p ?d] =>
      destruct (SetLocalDescription_err e w p d) eqn:?
  | |- context [SetRemoteDescription_err ?e ?w ?p ?d] =>
      destruct (SetRemoteDescription_err e w p d) eqn:?
  end; simpl.

Ltac unfold_methods :=
  unfold run, result, ConnectToPeer, handleOffer, handleAnswer, handleICECandidate,
    SendMessage, Register, setupDataChannel,
    webrtc_NewPeerConnection, pc_CreateDataChannel, pc_CreateOffer, pc_CreateAnswer,
    pc_SetLocalDescription, pc_SetRemoteDescription, pc_AddICECandidate,
    pc_OnDataChannel, dc_OnOpen, dc_OnMessage, dc_SendText, conn_WriteJSON,
    get_peerConn, get_dataChannel, get_peerID, store_peerConn, store_dataChannel,
    store_peerID, log_Print, fmt_Print, fmt_Println, emit,
    mbind, M_bind, mret, M_ret.

(** ** The negotiating methods, path by path *)

Section Properties.

Context (env : Env).

(** [ConnectToPeer] either returns an error after a failed call, having
    written nothing and stored nothing, or makes its five calls and stores
    the new connection. *)
Lemma ConnectToPeer_paths (P : string) (w : World) :
  let w' := run (ConnectToPeer env P) w in
  let pc := length (peerConnections w) in
  let dc := length (channels w) in
  (∃ err evs, result (ConnectToPeer env P) w = Some err
      ∧ trace w' = trace w ++ evs
      ∧ existsb negotiation_failed evs = true
      ∧ written evs = []
      ∧ client w' = client w)
  ∨ (∃ offer werr, result (ConnectToPeer env P) w = None
      ∧ (∃ w0, CreateOffer_res env w0 pc = inl offer)
      ∧ trace w' = trace w ++
          [EvNewPeerConnection (inl pc); EvCreateDataChannel pc "data" (inl dc);
           EvCreateOffer pc (inl offer); EvSetLocalDescription pc offer None;
           EvWriteJSON (offerMsg P offer) werr]
      ∧ client w' = {| peerID := peerID (client w);
                       peerConns := <[P := pc]> (peerConns (client w));
                       dataChannels := dataChannels (client w) |}
      ∧ channels w' = channels w ++
          [{| label := "data"; onOpen := Some (setupDataChannel_onOpen dc P);
              onMessage := Some (setupDataChannel_onMessage P) |}]
      ∧ peerConnections w' = peerConnections w ++
          [{| onDataChannel := None; localDescription := Some offer;
              remoteDescription := None; iceCandidates := [] |}]).
Proof.
  unfold_methods.
  ask_env.
  { left. eexists _, [_]. repeat split. }
  ask_env.
  { left. eexists _, [_; _]. rewrite <- ?app_assoc. repeat split. }
  rewrite !alter_last. simpl. rewrite <- ?app_assoc. simpl.
  ask_env.
  2:{ left. eexists _, [_; _; _]. rewrite <- ?app_assoc. repeat split. }
  ask_env.
  { left. eexists _, [_; _; _; _]. rewrite <- ?app_assoc. repeat split. }
  right. eexists _, _. rewrite <- ?app_assoc. simpl.
  split; [done|]. split; [eexists; eassumption|].
  rewrite !alter_last. done.
Qed.

(** [handleOffer] likewise: a failed call is logged and nothing is stored
    or written; otherwise the answer goes to the source of the offer. *)
Lemma handleOffer_paths (offer : SessionDescription) (src : string) (w : World) :
  let w' := run (handleOffer env offer src) w in
  let pc := length (peerConnections w) in
  (∃ evs, trace w' = trace w ++ evs
      ∧ existsb negotiation_failed evs = true
      ∧ written evs = []
      ∧ client w' = client w)
  ∨ (∃ answer werr, (∃ w0, CreateAnswer_res env w0 pc = inl answer)
      ∧ trace w' = trace w ++
          [EvNewPeerConnection (inl pc); EvSetRemoteDescription pc offer None;
           EvCreateAnswer pc (inl answer); EvSetLocalDescription pc answer None;
           EvWriteJSON (answerMsg src answer) werr]
      ∧ client w' = {| peerID := peerID (client w);
                       peerConns := <[src := pc]> (peerConns (client w));
                       dataChannels := dataChannels (client w) |}
      ∧ channels w' = channels w
      ∧ peerConnections w' = peerConnections w ++
          [{| onDataChannel := Some (handleOffer_onDataChannel src);
              localDescription := Some answer;
              remoteDescription := Some offer; iceCandidates := [] |}]).
Proof.
  unfold_methods.
  ask_env.
  { left. eexists [_; _]. rewrite <- ?app_assoc. repeat split. }
  ask_env.
  { left. eexists [_; _; _]. rewrite <- ?app_assoc. repeat split. }
  ask_env.
  2:{ left. eexists [_; _; _; _]. rewrite <- ?app_assoc. repeat split. }
  ask_env.
  { left. eexists [_; _; _; _; _]. rewrite <- ?app_assoc. repeat split. }
  right. eexists _, _. rewrite <- ?app_assoc. simpl.
  split; [eexists; eassumption|].
  rewrite ?alter_last. simpl. rewrite ?alter_last. done.
Qed.

Lemma body_registered (msg : Message) (w : World) :
  Type_ msg = "registered" →
  handleIncomingMessages_body env (ReadOk msg) w =
    let payload := (Unmarshal_registered env (Payload msg)).1 in
    match (Unmarshal_registered env (Payload msg)).2 with
    | Some err =>
        (Continue, set_trace (trace w ++
           [EvLog ("Received message type: " +:+ Type_ msg);
            EvLog ("Full message: " +:+ fmt_Message msg);
            EvLog ("Error unmarshalling registered payload: " +:+ err)]) w)
    | None =>
        if decide (registeredPayload.PeerID payload = "") then
          (Continue, set_trace (trace w ++
             [EvLog ("Received message type: " +:+ Type_ msg);
              EvLog ("Full message: " +:+ fmt_Message msg);
              EvLog "Received empty peer ID"]) w)
        else
          (Continue,
           set_trace (trace w ++
             [EvLog ("Received message type: " +:+ Type_ msg);
              EvLog ("Full message: " +:+ fmt_Message msg);
              EvLog ("Registered with peer ID: '" +:+ registeredPayload.PeerID payload +:+ "'");
              EvPrint ("Registered with peer ID: " +:+ registeredPayload.PeerID payload +:+ Str.newline)])
             (set_client {| peerID := registeredPayload.PeerID payload;
                            peerConns := peerConns (client w);
                            dataChannels := dataChannels (client w) |} w))
    end.
Proof.
  intros Hty. unfold handleIncomingMessages_body. unfold_methods. simpl.
  rewrite decide_True by done.
  destruct (Unmarshal_registered env (Payload msg)) as [payload [err|]]; simpl.
  - by rewrite <- ?app_assoc.
  - case_decide; simpl; by rewrite <- ?app_assoc.
Qed.

Lemma body_offer (msg : Message) (w : World) :
  Type_ msg = "offer" →
  handleIncomingMessages_body env (ReadOk msg) w =
    (Continue,
     run (handleOffer env (offerPayload.Offer (Unmarshal_offer env (Payload msg)).1)
                          (offerPayload.Source (Unmarshal_offer env (Payload msg)).1))
         (received msg w)).
Proof.
  intros Hty. unfold handleIncomingMessages_body, received.
  unfold run, mbind, M_bind, mret, M_ret, log_Print, emit. simpl.
  rewrite Hty. rewrite decide_False by done. rewrite decide_True by done.
  rewrite <- ?app_assoc. simpl.
  by destruct (handleOffer env _ _ _).
Qed.

Lemma body_answer (msg : Message) (w : World) :
  Type_ msg = "answer" →
  handleIncomingMessages_body env (ReadOk msg) w =
    (Continue,
     run (handleAnswer env (answerPayload.Answer (Unmarshal_answer env (Payload msg)).1)
                           (answerPayload.Source (Unmarshal_answer env (Payload msg)).1))
         (received msg w)).
Proof.
  intros Hty. unfold handleIncomingMessages_body, received.
  unfold run, mbind, M_bind, mret, M_ret, log_Print, emit. simpl.
  rewrite Hty. rewrite !decide_False by done. rewrite decide_True by done.
  rewrite <- ?app_assoc. simpl.
  by destruct (handleAnswer env _ _ _).
Qed.

Lemma body_candidate (msg : Message) (w : World) :
  Type_ msg = "ice-candidate" →
  handleIncomingMessages_body env (ReadOk msg) w =
    (Continue,
     run (handleICECandidate env
            (candidatePayload.Candidate (Unmarshal_candidate env (Payload msg)).1)
            (candidatePayload.Source (Unmarshal_candidate env (Payload msg)).1))
         (received msg w)).
Proof.
  intros Hty. unfold handleIncomingMessages_body, received.
  unfold run, mbind, M_bind, mret, M_ret, log_Print, emit. simpl.
  rewrite Hty. rewrite !decide_False by done. rewrite decide_True by done.
  rewrite <- ?app_assoc. simpl.
  by destruct (handleICECandidate env _ _ _).
Qed.

Lemma body_other (msg : Message) (w : World) :
  Type_ msg ≠ "registered" → Type_ msg ≠ "offer" →
  Type_ msg ≠ "answer" → Type_ msg ≠ "ice-candidate" →
  handleIncomingMessages_body env (ReadOk msg) w = (Continue, received msg w).
Proof.
  intros H1 H2 H3 H4. unfold handleIncomingMessages_body, received.
  unfold run, mbind, M_bind, mret, M_ret, log_Print, emit. simpl.
  rewrite !decide_False by done.
  by rewrite <- ?app_assoc.
Qed.

Lemma body_read_error (unexpected : bool) (err : error) (w : World) :
  handleIncomingMessages_body env (ReadErr unexpected err) w =
    (Return,
     set_trace (trace w ++
       [EvLog ((if unexpected then "WebSocket connection closed unexpectedly: "
                else "Error reading message: ") +:+ err)]) w).
Proof.
  unfold handleIncomingMessages_body. unfold_methods. by destruct unexpected.
Qed.

(** An answer or a candidate for a peer that has no stored connection
    changes nothing at all. *)
Lemma handleAnswer_absent (answer : SessionDescription) (src : string) (w : World) :
  peerConns (client w) !! src = None → handleAnswer env answer src w = (tt, w).
Proof. intros H. unfold_methods. by rewrite H. Qed.

Lemma handleICECandidate_absent (c : ICECandidateInit) (src : string) (w : World) :
  peerConns (client w) !! src = None → handleICECandidate env c src w = (tt, w).
Proof. intros H. unfold_methods. by rewrite H. Qed.

(** An answer for a peer with a stored connection is applied to it. *)
Lemma handleAnswer_present (answer : SessionDescription) (src : string) (pc : PCRef) (w : World) :
  peerConns (client w) !! src = Some pc →
  let w' := run (handleAnswer env answer src) w in
  (∃ err, trace w' = trace w ++ [EvSetRemoteDescription pc answer err])
  ∧ client w' = client w ∧ channels w' = channels w.
Proof.
  intros H. unfold_methods. rewrite H. simpl.
  destruct (SetRemoteDescription_err env w pc answer); simpl; eauto.
Qed.

Lemma received_client (msg : Message) (w : World) : client (received msg w) = client w.
Proof. reflexivity. Qed.

(** [SendMessage], by whether a channel is stored for the peer. *)
Lemma SendMessage_absent (P M : string) (w : World) :
  dataChannels (client w) !! P = None →
  SendMessage P M w =
    (tt, set_trace (trace w ++
           [EvPrint ("No open data channel to peer " +:+ P +:+ Str.newline)]) w).
Proof. intros H. unfold_methods. by rewrite H. Qed.

Lemma SendMessage_present (P M : string) (dc : DCRef) (w : World) :
  dataChannels (client w) !! P = Some dc →
  SendMessage P M w =
    (tt, set_trace (trace w ++
           [EvSendText dc M;
            EvPrint ("Message sent to " +:+ P +:+ ": " +:+ M +:+ Str.newline)]) w).
Proof. intros H. unfold_methods. rewrite H. simpl. by rewrite <- app_assoc. Qed.

(** The command loop on a [send] line. *)
Lemma main_body_send (P M : string) (w : World) :
  Str.free_of " " P = true →
  main_body env ("send " +:+ P +:+ " " +:+ M) w =
    (Continue, run (SendMessage P M) (run (fmt_Print "> ") w)).
Proof.
  intros HP. unfold main_body. rewrite (send_line_parts P M HP).
  unfold run, mbind, M_bind, mret, M_ret, fmt_Print, emit. simpl.
  by destruct (SendMessage P M _).
Qed.

(** The loop takes the reads one by one and stops at the first turn that
    does not say [Continue]. *)
Lemma handleIncomingMessages_cons (r : ReadResult) (rest : list ReadResult) (w : World) :
  handleIncomingMessages env (r :: rest) w =
    match result (handleIncomingMessages_body env r) w with
    | Continue => handleIncomingMessages env rest (run (handleIncomingMessages_body env r) w)
    | c => (c, run (handleIncomingMessages_body env r) w)
    end.
Proof.
  unfold run, result. simpl. unfold mbind, M_bind, mret, M_ret.
  by destruct (handleIncomingMessages_body env r w) as [[| |reason] w1].
Qed.

(** A turn on a message that was read never ends the loop, whatever the
    type of the message and whatever its payload decodes to. *)
Lemma body_continues (msg : Message) (w : World) :
  result (handleIncomingMessages_body env (ReadOk msg)) w = Continue.
Proof.
  unfold result.
  destruct (decide (Type_ msg = "registered")) as [H1|H1].
  { rewrite (body_registered msg w H1). simpl.
    destruct ((Unmarshal_registered env (Payload msg)).2); [done|].
    by case_decide. }
  destruct (decide (Type_ msg = "offer")) as [H2|H2].
  { by rewrite (body_offer msg w H2). }
  destruct (decide (Type_ msg = "answer")) as [H3|H3].
  { by rewrite (body_answer msg w H3). }
  destruct (decide (Type_ msg = "ice-candidate")) as [H4|H4].
  { by rewrite (body_candidate msg w H4). }
  by rewrite (body_other msg w H1 H2 H3 H4).
Qed.

Lemma written_app (t1 t2 : list Event) : written (t1 ++ t2) = written t1 ++ written t2.
Proof. unfold written. apply flat_map_app. Qed.

(** [Register] writes the register envelope between two log lines. *)
Lemma Register_run (w : World) :
  ∃ werr line,
    Register env w =
      (tt, set_trace (trace w ++ [EvLog "Sending register message";
                                  EvWriteJSON registerMsg werr; EvLog line]) w).
Proof.
  unfold_methods. simpl.
  destruct (WriteJSON_err env _ registerMsg) as [e|] eqn:E; simpl;
    eexists _, _; rewrite <- ?app_assoc; reflexivity.
Qed.

(** The command loop on the lines [register] and [connect xyz]. *)
Lemma main_body_register (w : World) :
  main_body env "register" w = (Continue, run (Register env) (run (fmt_Print "> ") w)).
Proof.
  unfold main_body.
  change (Str.SplitN "register" " " 3) with ["register"].
  unfold run, mbind, M_bind, mret, M_ret, fmt_Print, emit. simpl.
  by destruct (Register env _).
Qed.

Lemma main_body_connect_xyz (w : World) :
  main_body env "connect xyz" w =
    match result (ConnectToPeer env "xyz") (run (fmt_Print "> ") w) with
    | Some err =>
        (Continue,
         run (fmt_Println ("Error connecting to peer: " +:+ err))
             (run (ConnectToPeer env "xyz") (run (fmt_Print "> ") w)))
    | None => (Continue, run (ConnectToPeer env "xyz") (run (fmt_Print "> ") w))
    end.
Proof.
  unfold main_body.
  change (Str.SplitN "connect xyz" " " 3) with ["connect"; "xyz"].
  unfold run, result, mbind, M_bind, mret, M_ret, fmt_Print, fmt_Println, emit. simpl.
  by destruct (ConnectToPeer env "xyz" _) as [[e|] w1].
Qed.

(** Steps of the running process. *)
Lemma step_stdin (line : string) (p : Process) :
  status p = Running →
  step env (Stdin line) p =
    {| world := run (main_body env line) (world p);
       status := status_after (result (main_body env line) (world p));
       dispatching := dispatching p |}.
Proof. intros H. unfold step. by rewrite H. Qed.

Lemma step_relay_ok (msg : Message) (p : Process) :
  status p = Running → dispatching p = true →
  step env (Relay (ReadOk msg)) p =
    {| world := run (handleIncomingMessages_body env (ReadOk msg)) (world p);
       status := Running;
       dispatching := true |}.
Proof. intros H1 H2. unfold step. by rewrite H1, H2, body_continues. Qed.

(** ** The specified behaviour *)

(** C1 (as amended): the client keeps at most one connection per peer
    identifier, the one its map holds, but it has no get-or-create: every
    [ConnectToPeer] that succeeds and every offer from P that is answered
    makes a connection object that was not there before and stores it
    under P, in the place of whatever was stored for P. *)
Theorem C1_each_negotiation_stores_a_new_connection
    (P : string) (offer : SessionDescription) (w : World) :
  let fresh := length (peerConnections w) in
  (result (ConnectToPeer env P) w = None →
     let w' := run (ConnectToPeer env P) w in
     peerConns (client w') = <[P := fresh]> (peerConns (client w))
     ∧ peerConns (client w') !! P = Some fresh
     ∧ peerConnections w !! fresh = None
     ∧ is_Some (peerConnections w' !! fresh))
  ∧ (existsb negotiation_failed (since w (run (handleOffer env offer P) w)) = false →
     let w' := run (handleOffer env offer P) w in
     peerConns (client w') = <[P := fresh]> (peerConns (client w))
     ∧ peerConns (client w') !! P = Some fresh
     ∧ peerConnections w !! fresh = None
     ∧ is_Some (peerConnections w' !! fresh)).
Proof.
  intros fresh. subst fresh. split.
  - intros Hok w'. subst w'.
    destruct (ConnectToPeer_paths P w)
      as [(err & evs & Hres & _)|(o & werr & _ & _ & _ & Hcl & _ & Hpcs)].
    { congruence. }
    rewrite Hcl, Hpcs. simpl. split_and!.
    + done.
    + apply lookup_insert_eq.
    + by apply lookup_ge_None.
    + rewrite lookup_last. eauto.
  - intros Hok w'. subst w'.
    destruct (handleOffer_paths offer P w)
      as [(evs & Htr & Hfail & _)|(a & werr & _ & _ & Hcl & _ & Hpcs)].
    { rewrite (since_app _ _ _ Htr) in Hok. congruence. }
    rewrite Hcl, Hpcs. simpl. split_and!.
    + done.
    + apply lookup_insert_eq.
    + by apply lookup_ge_None.
    + rewrite lookup_last. eauto.
Qed.

(** C2 (as amended): a [registered] envelope whose payload does not decode
    has the failure logged and is dropped, and the loop goes on with the
    reads that follow: a later well-formed [registered] envelope still sets
    the identifier.  No payload, of any envelope type, ends the loop.  A
    read that fails, as it does on a frame that is not the JSON of an
    envelope, is logged and ends the loop: the reads after it are not
    looked at. *)
Theorem C2_registered_payload_error_is_logged_and_dropped
    (msg : Message) (err : error) (rest : list ReadResult) (w : World) :
  Type_ msg = "registered" →
  (Unmarshal_registered env (Payload msg)).2 = Some err →
  let w' := run (handleIncomingMessages_body env (ReadOk msg)) w in
  since w w' = [EvLog ("Received message type: " +:+ Type_ msg);
                EvLog ("Full message: " +:+ fmt_Message msg);
                EvLog ("Error unmarshalling registered payload: " +:+ err)]
  ∧ client w' = client w
  ∧ peerConnections w' = peerConnections w
  ∧ channels w' = channels w
  ∧ handleIncomingMessages env (ReadOk msg :: rest) w = handleIncomingMessages env rest w'
  ∧ (∀ reg, Type_ reg = "registered" →
       (Unmarshal_registered env (Payload reg)).2 = None →
       registeredPayload.PeerID (Unmarshal_registered env (Payload reg)).1 ≠ "" →
       peerID (client (run (handleIncomingMessages env [ReadOk msg; ReadOk reg]) w))
         = registeredPayload.PeerID (Unmarshal_registered env (Payload reg)).1)
  ∧ (∀ m w0, result (handleIncomingMessages_body env (ReadOk m)) w0 = Continue)
  ∧ (∀ unexpected e rest0 w0,
       handleIncomingMessages env (ReadErr unexpected e :: rest0) w0 =
         (Return,
          set_trace (trace w0 ++
            [EvLog ((if unexpected then "WebSocket connection closed unexpectedly: "
                     else "Error reading message: ") +:+ e)]) w0)).
Proof.
  intros Hty Herr w'. subst w'.
  assert (Hbody : handleIncomingMessages_body env (ReadOk msg) w =
            (Continue, set_trace (trace w ++
               [EvLog ("Received message type: " +:+ Type_ msg);
                EvLog ("Full message: " +:+ fmt_Message msg);
                EvLog ("Error unmarshalling registered payload: " +:+ err)]) w)).
  { rewrite (body_registered msg w Hty). simpl. by rewrite Herr. }
  split_and!.
  - unfold run. rewrite Hbody. simpl. by erewrite since_app.
  - unfold run. by rewrite Hbody.
  - unfold run. by rewrite Hbody.
  - unfold run. by rewrite Hbody.
  - rewrite handleIncomingMessages_cons. by rewrite body_continues.
  - intros reg Hreg Hnone Hid.
    unfold run at 1. rewrite handleIncomingMessages_cons, body_continues.
    rewrite handleIncomingMessages_cons, body_continues.
    change (handleIncomingMessages env [] ?x) with (Continue, x).
    cbn [snd].
    unfold run at 1. rewrite (body_registered reg _ Hreg). simpl.
    rewrite Hnone. by rewrite decide_False.
  - apply body_continues.
  - intros unexpected e rest0 w0.
    rewrite handleIncomingMessages_cons. unfold run, result.
    by rewrite body_read_error.
Qed.

(** C6: after [ConnectToPeer P] has succeeded and an [answer] envelope
    from P has been handled, the answer has been applied to the connection
    stored for P; when the channel that [ConnectToPeer] created is then
    reported open, it is stored as the data channel of P; and
    [SendMessage P msg] after that calls [SendText] once, on that channel,
    with [msg]. *)
Theorem C6_round_trip_to_open_channel (P msg : string) (ans : Message) (w : World) :
  result (ConnectToPeer env P) w = None →
  Type_ ans = "answer" →
  answerPayload.Source (Unmarshal_answer env (Payload ans)).1 = P →
  let pc := length (peerConnections w) in
  let dc := length (channels w) in
  let w1 := run (ConnectToPeer env P) w in
  let w2 := run (handleIncomingMessages_body env (ReadOk ans)) w1 in
  let w3 := run (channelOpened dc) w2 in
  let w4 := run (SendMessage P msg) w3 in
  In (EvCreateDataChannel pc "data" (inl dc)) (since w w1)
  ∧ peerConns (client w1) !! P = Some pc
  ∧ dataChannels (client w2) = dataChannels (client w)
  ∧ (∃ err, In (EvSetRemoteDescription pc
                  (answerPayload.Answer (Unmarshal_answer env (Payload ans)).1) err)
               (since w1 w2))
  ∧ dataChannels (client w3) !! P = Some dc
  ∧ sentText (since w3 w4) = [(dc, msg)].
Proof.
  intros Hok Hty Hsrc pc dc w1 w2 w3 w4.
  destruct (ConnectToPeer_paths P w)
    as [(err & evs & Hres & _)|(o & werr & _ & _ & Htr1 & Hcl1 & Hch1 & _)].
  { congruence. }
  fold w1 in Htr1, Hcl1, Hch1. fold pc in Htr1, Hcl1. fold dc in Htr1, Hch1.
  assert (Hpc : peerConns (client (received ans w1)) !! P = Some pc).
  { rewrite received_client, Hcl1. simpl. apply lookup_insert_eq. }
  assert (Hw2 : w2 = run (handleAnswer env
                  (answerPayload.Answer (Unmarshal_answer env (Payload ans)).1) P)
                  (received ans w1)).
  { unfold w2, run at 1. rewrite (body_answer ans w1 Hty). by rewrite Hsrc. }
  destruct (handleAnswer_present
              (answerPayload.Answer (Unmarshal_answer env (Payload ans)).1)
              P pc (received ans w1) Hpc) as ((e & Htr2) & Hcl2 & Hch2).
  rewrite <- Hw2 in Htr2, Hcl2, Hch2.
  assert (Hopen : channelOpened dc w2 =
            (tt, set_client {| peerID := peerID (client w2);
                               peerConns := peerConns (client w2);
                               dataChannels := <[P := dc]> (dataChannels (client w2)) |}
                   (set_trace (trace w2 ++
                      [EvPrint ("Data channel opened with peer: " +:+ P +:+ Str.newline)]) w2))).
  { unfold channelOpened. rewrite Hch2. simpl. rewrite Hch1.
    unfold dc. rewrite lookup_last. simpl. by unfold_methods. }
  split_and!.
  - rewrite (since_app _ _ _ Htr1). simpl. auto.
  - rewrite Hcl1. simpl. apply lookup_insert_eq.
  - by rewrite Hcl2, received_client, Hcl1.
  - exists e. erewrite since_app.
    2:{ rewrite Htr2. simpl. rewrite <- app_assoc. reflexivity. }
    simpl. auto.
  - unfold w3, run. rewrite Hopen. simpl. apply lookup_insert_eq.
  - unfold w4, run at 1.
    rewrite (SendMessage_present P msg dc).
    + cbn [snd].
      rewrite (since_app w3 _
           [EvSendText dc msg;
            EvPrint ("Message sent to " +:+ P +:+ ": " +:+ msg +:+ Str.newline)]);
        [done | reflexivity].
    + unfold w3, run. rewrite Hopen. simpl. apply lookup_insert_eq.
Qed.

(** C3 (as amended): an inbound [answer] or [ice-candidate] envelope whose
    source peer has no stored connection is a no-op: the loop goes on, no
    envelope is written, the client and the collaborator's objects are as
    before, and the only output is the two log lines the dispatcher writes
    for every message it receives; the handler itself logs nothing. *)
Theorem C3_unknown_peer_only_logged (msg : Message) (w : World) :
  (Type_ msg = "answer"
   ∧ peerConns (client w) !! answerPayload.Source (Unmarshal_answer env (Payload msg)).1 = None)
  ∨ (Type_ msg = "ice-candidate"
     ∧ peerConns (client w) !! candidatePayload.Source (Unmarshal_candidate env (Payload msg)).1 = None) →
  let w' := run (handleIncomingMessages_body env (ReadOk msg)) w in
  result (handleIncomingMessages_body env (ReadOk msg)) w = Continue
  ∧ since w w' = [EvLog ("Received message type: " +:+ Type_ msg);
                  EvLog ("Full message: " +:+ fmt_Message msg)]
  ∧ written (since w w') = []
  ∧ client w' = client w
  ∧ peerConnections w' = peerConnections w
  ∧ channels w' = channels w.
Proof.
  intros [[Hty Hnone]|[Hty Hnone]] w'; subst w'.
  - unfold run, result. rewrite (body_answer msg w Hty). unfold run. simpl.
    rewrite handleAnswer_absent by done. simpl.
    rewrite (since_app w (received msg w) _ eq_refl). done.
  - unfold run, result. rewrite (body_candidate msg w Hty). unfold run. simpl.
    rewrite handleICECandidate_absent by done. simpl.
    rewrite (since_app w (received msg w) _ eq_refl). done.
Qed.

(** C7: with no data channel stored for P, the command [send P M] prints
    the notice that there is no open data channel to P, calls [SendText]
    on no channel, leaves the client and the collaborator's objects as
    they were, and the command loop goes on. *)
Theorem C7_send_without_open_channel (P M : string) (w : World) :
  dataChannels (client w) !! P = None →
  SendMessage P M w =
    (tt, set_trace (trace w ++
           [EvPrint ("No open data channel to peer " +:+ P +:+ Str.newline)]) w)
  ∧ (Str.free_of " " P = true →
     let w' := run (main_body env ("send " +:+ P +:+ " " +:+ M)) w in
     result (main_body env ("send " +:+ P +:+ " " +:+ M)) w = Continue
     ∧ since w w' = [EvPrint "> ";
                     EvPrint ("No open data channel to peer " +:+ P +:+ Str.newline)]
     ∧ sentText (since w w') = []
     ∧ client w' = client w
     ∧ peerConnections w' = peerConnections w
     ∧ channels w' = channels w).
Proof.
  intros Hnone. split; [by apply SendMessage_absent|].
  intros HP w'; subst w'. unfold run, result.
  rewrite (main_body_send P M w HP). unfold run. simpl.
  rewrite SendMessage_absent by done. simpl.
  rewrite (since_app w _ [EvPrint "> ";
             EvPrint ("No open data channel to peer " +:+ P +:+ Str.newline)]); [done|].
  simpl. by rewrite <- app_assoc.
Qed.

(** C8: when a call on the negotiation collaborator fails during
    [ConnectToPeer] or during [handleOffer], the operation stops there: the
    client, and so both of its maps, is as it was before, and no envelope
    has been written; [ConnectToPeer] returns the error. *)
Theorem C8_failed_negotiation_stores_nothing
    (P : string) (offer : SessionDescription) (w : World) :
  (existsb negotiation_failed (since w (run (ConnectToPeer env P) w)) = true →
     is_Some (result (ConnectToPeer env P) w)
     ∧ client (run (ConnectToPeer env P) w) = client w
     ∧ written (since w (run (ConnectToPeer env P) w)) = [])
  ∧ (existsb negotiation_failed (since w (run (handleOffer env offer P) w)) = true →
     client (run (handleOffer env offer P) w) = client w
     ∧ written (since w (run (handleOffer env offer P) w)) = []).
Proof.
  split.
  - destruct (ConnectToPeer_paths P w)
      as [(err & evs & Hres & Htr & _ & Hwr & Hcl)|(o & werr & _ & _ & Htr & _)];
      rewrite (since_app _ _ _ Htr).
    + intros _. rewrite Hres. eauto.
    + simpl. discriminate.
  - destruct (handleOffer_paths offer P w)
      as [(evs & Htr & _ & Hwr & Hcl)|(a & werr & _ & Htr & _)];
      rewrite (since_app _ _ _ Htr).
    + done.
    + simpl. discriminate.
Qed.

(** C9: a [registered] envelope whose payload does not decode, or decodes
    to an empty peerId, leaves the client as it was, so the local
    identifier too, and the loop goes on; with a decoded peerId that is not
    empty the identifier becomes that peerId.  So the identifier changes
    only on a decoded peerId that is not empty, and the maps never do. *)
Theorem C9_registered_sets_identity (msg : Message) (w : World) :
  Type_ msg = "registered" →
  let payload := (Unmarshal_registered env (Payload msg)).1 in
  let err := (Unmarshal_registered env (Payload msg)).2 in
  let w' := run (handleIncomingMessages_body env (ReadOk msg)) w in
  result (handleIncomingMessages_body env (ReadOk msg)) w = Continue
  ∧ (is_Some err ∨ registeredPayload.PeerID payload = "" → client w' = client w)
  ∧ (err = None → registeredPayload.PeerID payload ≠ "" →
     peerID (client w') = registeredPayload.PeerID payload)
  ∧ (peerID (client w') ≠ peerID (client w) →
     err = None ∧ registeredPayload.PeerID payload ≠ "")
  ∧ peerConns (client w') = peerConns (client w)
  ∧ dataChannels (client w') = dataChannels (client w).
Proof.
  intros Hty payload err w'; subst payload err w'.
  unfold run, result. rewrite (body_registered msg w Hty). simpl.
  destruct (Unmarshal_registered env (Payload msg)) as [payload [err|]]; simpl.
  - split_and!; try done.
  - case_decide as Hid; simpl.
    + split_and!; try done.
    + split_and!; try done. intros [[? ?]|?]; done.
Qed.

(** C10: the command line is split in at most three parts at its first
    two spaces, so on a line [send P M] the whole rest of the line after
    the second space, with the spaces it holds, is the one message given
    to [SendMessage], and to [SendText] when a channel is stored for P. *)
Theorem C10_message_is_rest_of_line (P M : string) (w : World) :
  Str.free_of " " P = true →
  Str.SplitN ("send " +:+ P +:+ " " +:+ M) " " 3 = ["send"; P; M]
  ∧ main_body env ("send " +:+ P +:+ " " +:+ M) w =
      (Continue, run (SendMessage P M) (run (fmt_Print "> ") w))
  ∧ (∀ dc, dataChannels (client w) !! P = Some dc →
       sentText (since w (run (main_body env ("send " +:+ P +:+ " " +:+ M)) w))
         = [(dc, M)])
  ∧ (∀ input, length (Str.SplitN input " " 3) ≤ 3).
Proof.
  intros HP. split_and!.
  - by apply send_line_parts.
  - by apply main_body_send.
  - intros dc Hdc. unfold run. rewrite (main_body_send P M w HP). unfold run. simpl.
    rewrite (SendMessage_present P M dc) by done. simpl.
    rewrite (since_app w _ [EvPrint "> "; EvSendText dc M;
               EvPrint ("Message sent to " +:+ P +:+ ": " +:+ M +:+ Str.newline)]); [done|].
    simpl. by rewrite <- app_assoc.
  - intros input. apply SplitN_length.
Qed.

End Properties.

(** ** Concrete runs *)

(** Connecting twice to one peer, and then an offer from that peer: three
    connection objects, each stored over the one before. *)
Lemma C1_counterexample :
  let w1 := run (ConnectToPeer happy "xyz") NewClient in
  let w2 := run (ConnectToPeer happy "xyz") w1 in
  let w3 := run (handleIncomingMessages_body happy (ReadOk (offerFrom "p")))
                (run (ConnectToPeer happy "p") NewClient) in
  result (ConnectToPeer happy "xyz") NewClient = None
  ∧ result (ConnectToPeer happy "xyz") w1 = None
  ∧ peerConns (client w1) !! "xyz" = Some 0
  ∧ peerConns (client w2) !! "xyz" = Some 1
  ∧ peerConns (client w2) !! "xyz" ≠ peerConns (client w1) !! "xyz"
  ∧ length (peerConnections w2) = 2
  ∧ peerConns (client (run (ConnectToPeer happy "p") NewClient)) !! "p" = Some 0
  ∧ peerConns (client w3) !! "p" = Some 1
  ∧ length (peerConnections w3) = 2.
Proof. vm_compute. split_and!; congruence. Qed.

Lemma C1_witness :
  result (ConnectToPeer happy "xyz") NewClient = None
  ∧ existsb negotiation_failed
      (since NewClient (run (handleOffer happy zeroDescription "xyz") NewClient)) = false
  ∧ peerConns (client (run (ConnectToPeer happy "xyz") NewClient)) !! "xyz" = Some 0
  ∧ peerConns (client (run (handleOffer happy zeroDescription "xyz") NewClient)) !! "xyz" = Some 0.
Proof.
  destruct (C1_each_negotiation_stores_a_new_connection happy "xyz" zeroDescription NewClient)
    as [H1 H2].
  split; [reflexivity|]. split; [reflexivity|]. split.
  - apply H1. reflexivity.
  - apply H2. reflexivity.
Defined.

(** A read that fails ends the loop, so the well-formed [registered]
    envelope after it is never handled; and an [offer] whose payload does
    not decode is neither logged as such nor dropped: it is answered. *)
Lemma C2_counterexample :
  let stream := [ReadErr false "invalid character"; ReadOk registeredAbc] in
  let bad := {| Type_ := "offer"; Payload := badSourceOffer |} in
  let w' := run (handleIncomingMessages_body happy (ReadOk bad)) NewClient in
  (result (handleIncomingMessages happy stream) NewClient = Return
   ∧ peerID (client (run (handleIncomingMessages happy stream) NewClient)) = ""
   ∧ peerID (client (run (handleIncomingMessages happy [ReadOk registeredAbc]) NewClient)) = "abc")
  ∧ (is_Some (Unmarshal_offer happy (Payload bad)).2
     ∧ length (logged (since NewClient w')) = 2
     ∧ written (since NewClient w') = [answerMsg "" sampleAnswer]
     ∧ peerConns (client w') !! "" = Some 0).
Proof. vm_compute. split_and!; eauto. Qed.

Lemma C2_witness :
  Type_ registeredBad = "registered"
  ∧ (Unmarshal_registered happy (Payload registeredBad)).2 = Some "json: cannot unmarshal"
  ∧ client (run (handleIncomingMessages_body happy (ReadOk registeredBad)) NewClient)
      = client NewClient
  ∧ peerID (client (run (handleIncomingMessages happy
                            [ReadOk registeredBad; ReadOk registeredAbc]) NewClient)) = "abc".
Proof.
  destruct (C2_registered_payload_error_is_logged_and_dropped happy registeredBad
              "json: cannot unmarshal" [] NewClient eq_refl eq_refl)
    as (_ & Hcl & _ & _ & _ & Hnext & _).
  split; [reflexivity|]. split; [reflexivity|]. split; [exact Hcl|].
  apply (Hnext registeredAbc); [reflexivity | reflexivity | vm_compute; discriminate].
Defined.

(** An answer from a peer nobody connected to: the dispatcher writes two
    log lines, not one, and [handleAnswer] writes none. *)
Lemma C3_counterexample :
  let w' := run (handleIncomingMessages_body happy (ReadOk (answerFrom "p"))) NewClient in
  peerConns (client NewClient) !! answerPayload.Source
      (Unmarshal_answer happy (Payload (answerFrom "p"))).1 = None
  ∧ length (logged (since NewClient w')) = 2
  ∧ length (logged (since NewClient w')) ≠ 1
  ∧ logged (since NewClient (run (handleAnswer happy zeroDescription "p") NewClient)) = [].
Proof. vm_compute. split_and!; congruence. Qed.

Lemma C3_witness :
  (Type_ (answerFrom "p") = "answer"
   ∧ peerConns (client NewClient) !! answerPayload.Source
       (Unmarshal_answer happy (Payload (answerFrom "p"))).1 = None)
  ∧ client (run (handleIncomingMessages_body happy (ReadOk (answerFrom "p"))) NewClient)
      = client NewClient.
Proof.
  split; [split; reflexivity|].
  apply (C3_unknown_peer_only_logged happy (answerFrom "p") NewClient).
  left. split; reflexivity.
Defined.

Lemma C6_witness :
  result (ConnectToPeer happy "p") NewClient = None
  ∧ Type_ (answerFrom "p") = "answer"
  ∧ answerPayload.Source (Unmarshal_answer happy (Payload (answerFrom "p"))).1 = "p"
  ∧ sentText
      (since
         (run (channelOpened 0)
            (run (handleIncomingMessages_body happy (ReadOk (answerFrom "p")))
               (run (ConnectToPeer happy "p") NewClient)))
         (run (SendMessage "p" "hello")
            (run (channelOpened 0)
               (run (handleIncomingMessages_body happy (ReadOk (answerFrom "p")))
                  (run (ConnectToPeer happy "p") NewClient)))))
      = [(0, "hello")].
Proof.
  split; [reflexivity|]. split; [reflexivity|]. split; [reflexivity|].
  apply (C6_round_trip_to_open_channel happy "p" "hello" (answerFrom "p") NewClient);
    reflexivity.
Defined.

Lemma C7_witness :
  dataChannels (client NewClient) !! "xyz" = None
  ∧ Str.free_of " " "xyz" = true
  ∧ result (main_body happy ("send " +:+ "xyz" +:+ " " +:+ "hello")) NewClient = Continue.
Proof.
  split; [reflexivity|]. split; [reflexivity|].
  apply (C7_send_without_open_channel happy "xyz" "hello" NewClient); reflexivity.
Defined.

Lemma C8_witness :
  existsb negotiation_failed
    (since NewClient (run (ConnectToPeer failing "p") NewClient)) = true
  ∧ existsb negotiation_failed
      (since NewClient (run (handleOffer failing zeroDescription "p") NewClient)) = true
  ∧ client (run (ConnectToPeer failing "p") NewClient) = client NewClient
  ∧ client (run (handleOffer failing zeroDescription "p") NewClient) = client NewClient.
Proof.
  destruct (C8_failed_negotiation_stores_nothing failing "p" zeroDescription NewClient)
    as [H1 H2].
  split; [reflexivity|]. split; [reflexivity|]. split.
  - apply H1. reflexivity.
  - apply H2. reflexivity.
Defined.

Lemma C9_witness :
  Type_ registeredAbc = "registered"
  ∧ peerID (client (run (handleIncomingMessages_body happy (ReadOk registeredAbc)) NewClient))
      = "abc".
Proof.
  split; [reflexivity|].
  destruct (C9_registered_sets_identity happy registeredAbc NewClient eq_refl)
    as (_ & _ & Hset & _).
  apply Hset; [reflexivity | vm_compute; discriminate].
Defined.

Lemma C10_witness :
  Str.free_of " " "xyz" = true
  ∧ Str.SplitN ("send " +:+ "xyz" +:+ " " +:+ "hello big world") " " 3
      = ["send"; "xyz"; "hello big world"].
Proof.
  split; [reflexivity|].
  apply (C10_message_is_rest_of_line happy "xyz" "hello big world" NewClient).
  reflexivity.
Defined.

(** * More of the program *)

(** ** The split of a line *)

Lemma cut_Some (s : string) (sep : ascii) (a rest : string) :
  Str.cut s sep = Some (a, rest) → s = a +:+ String sep rest.
Proof.
  revert a. induction s as [|c s IH]; intros a H; simpl in H; [done|].
  case_decide as Hc.
  - injection H as <- <-. by subst c.
  - destruct (Str.cut s sep) as [[a' b']|] eqn:E; [|done].
    injection H as <- <-. rewrite append_cons. f_equal. by apply IH.
Qed.

Lemma cut_None (s : string) (sep : ascii) :
  Str.free_of sep s = true → Str.cut s sep = None.
Proof.
  induction s as [|c s IH]; intros H; simpl in *; [done|].
  case_decide; [done|]. by rewrite IH.
Qed.

Lemma cut_shorter (s : string) (sep : ascii) (a rest : string) :
  Str.cut s sep = Some (a, rest) → String.length rest < String.length s.
Proof.
  intros H. rewrite (cut_Some _ _ _ _ H), length_append. simpl. lia.
Qed.

(** More cuts than the line has bytes change nothing: the cap of [SplitN]
    on its count only bounds the slice it allocates. *)
Lemma genSplit_enough (sep : ascii) (k1 : nat) :
  ∀ (s : string) (k2 : nat),
    String.length s ≤ k1 → String.length s ≤ k2 →
    Str.genSplit s sep k1 = Str.genSplit s sep k2.
Proof.
  induction k1 as [|k1 IH]; intros s k2 H1 H2.
  - destruct s; [|simpl in H1; lia]. by destruct k2.
  - destruct k2 as [|k2].
    { destruct s; [done|simpl in H2; lia]. }
    simpl. destruct (Str.cut s sep) as [[a rest]|] eqn:E; [|done].
    pose proof (cut_shorter _ _ _ _ E). f_equal. apply IH; lia.
Qed.

Lemma SplitN_genSplit (s : string) (sep : ascii) (n : nat) :
  Str.SplitN s sep (S n) = Str.genSplit s sep n.
Proof.
  unfold Str.SplitN.
  destruct (decide (n ≤ String.length s)) as [Hle|Hgt].
  - f_equal. lia.
  - replace (S n `min` S (String.length s) - 1) with (String.length s) by lia.
    apply genSplit_enough; lia.
Qed.

Lemma genSplit_head (s : string) (sep : ascii) (k : nat) :
  ∃ cmd rest, Str.genSplit s sep k = cmd :: rest.
Proof.
  destruct k as [|k]; simpl; [eauto|].
  destruct (Str.cut s sep) as [[a rest]|]; eauto.
Qed.

Lemma genSplit_join (sep : ascii) (k : nat) :
  ∀ s, String.concat (String sep EmptyString) (Str.genSplit s sep k) = s.
Proof.
  induction k as [|k IH]; intros s; simpl; [done|].
  destruct (Str.cut s sep) as [[a rest]|] eqn:E; [|done].
  destruct (genSplit_head rest sep k) as (x & xs & Hx).
  specialize (IH rest). rewrite Hx in *. simpl in *.
  rewrite IH. symmetry. by apply cut_Some.
Qed.

(** The parts of a line whose first word is [cmd]. *)
Lemma SplitN_word (cmd : string) :
  Str.free_of " " cmd = true → Str.SplitN cmd " " 3 = [cmd].
Proof.
  intros H. rewrite SplitN_genSplit. simpl. by rewrite cut_None.
Qed.

Lemma SplitN_word_arg (cmd arg : string) :
  Str.free_of " " cmd = true → Str.free_of " " arg = true →
  Str.SplitN (cmd +:+ String " " arg) " " 3 = [cmd; arg].
Proof.
  intros H1 H2. rewrite SplitN_genSplit. simpl.
  rewrite (cut_free _ _ _ H1). by rewrite cut_None.
Qed.

Lemma SplitN_word_rest (cmd tail : string) :
  Str.free_of " " cmd = true →
  Str.SplitN (cmd +:+ String " " tail) " " 3 = cmd :: Str.genSplit tail " " 1.
Proof.
  intros H. rewrite SplitN_genSplit. simpl. by rewrite (cut_free _ _ _ H).
Qed.

(** X3: splitting a command line loses nothing: it gives between one and
    three parts, and the parts joined by single spaces are the line. *)
Theorem X3_split_line_joins_back (input : string) :
  String.concat " " (Str.SplitN input " " 3) = input
  ∧ 1 ≤ length (Str.SplitN input " " 3) ≤ 3.
Proof.
  split.
  - rewrite SplitN_genSplit. apply genSplit_join.
  - split; [|apply SplitN_length].
    rewrite SplitN_genSplit.
    destruct (genSplit_head input " " 2) as (c & r & ->). simpl. lia.
Qed.

Section Further.

Context (env : Env).

(** ** The command loop, line by line *)

Lemma prompt_then_line (text : string) (w : World) :
  run (fmt_Println text) (run (fmt_Print "> ") w) =
    set_trace (trace w ++ [EvPrint "> "; EvPrint (text +:+ Str.newline)]) w.
Proof. unfold run, fmt_Println, fmt_Print, emit. simpl. by rewrite <- app_assoc. Qed.

Lemma main_body_exit (input : string) (w : World) :
  Str.SplitN input " " 3 !! 0 = Some "exit" →
  main_body env input w = (Return, run (fmt_Print "> ") w).
Proof.
  intros H. unfold main_body, mbind, M_bind, mret, M_ret, fmt_Print, emit.
  cbv zeta. rewrite H. cbn [fst snd]. by rewrite !decide_False, decide_True by done.
Qed.

Lemma main_body_unknown (input cmd : string) (w : World) :
  Str.SplitN input " " 3 !! 0 = Some cmd →
  cmd ≠ "register" → cmd ≠ "connect" → cmd ≠ "send" → cmd ≠ "exit" →
  main_body env input w =
    (Continue,
     run (fmt_Println "Unknown command. Available commands: register, connect, send, exit")
         (run (fmt_Print "> ") w)).
Proof.
  intros H H1 H2 H3 H4.
  unfold main_body, run, mbind, M_bind, mret, M_ret, fmt_Print, fmt_Println, emit.
  cbv zeta. rewrite H. cbn [fst snd]. by rewrite !decide_False by done.
Qed.

Lemma main_body_connect (input P : string) (rest : list string) (w : World) :
  Str.SplitN input " " 3 = "connect" :: P :: rest →
  main_body env input w =
    match result (ConnectToPeer env P) (run (fmt_Print "> ") w) with
    | Some err =>
        (Continue,
         run (fmt_Println ("Error connecting to peer: " +:+ err))
             (run (ConnectToPeer env P) (run (fmt_Print "> ") w)))
    | None => (Continue, run (ConnectToPeer env P) (run (fmt_Print "> ") w))
    end.
Proof.
  intros H. unfold main_body. rewrite H.
  unfold run, result, mbind, M_bind, mret, M_ret, fmt_Print, fmt_Println, emit. simpl.
  by destruct (ConnectToPeer env P _) as [[e|] w1].
Qed.

Lemma main_body_connect_usage (input : string) (w : World) :
  Str.SplitN input " " 3 = ["connect"] →
  main_body env input w =
    (Continue, run (fmt_Println "Usage: connect <peerId>") (run (fmt_Print "> ") w)).
Proof.
  intros H. unfold main_body. rewrite H.
  by unfold run, mbind, M_bind, mret, M_ret, fmt_Print, fmt_Println, emit.
Qed.

Lemma main_body_send_usage (input : string) (args : list string) (w : World) :
  Str.SplitN input " " 3 = "send" :: args → length args < 2 →
  main_body env input w =
    (Continue, run (fmt_Println "Usage: send <peerId> <message>") (run (fmt_Print "> ") w)).
Proof.
  intros H Hlen. unfold main_body. rewrite H.
  unfold run, mbind, M_bind, mret, M_ret, fmt_Print, fmt_Println, emit. simpl.
  by rewrite decide_True by lia.
Qed.

Lemma main_body_send_parts (input P msg : string) (w : World) :
  Str.SplitN input " " 3 = ["send"; P; msg] →
  main_body env input w = (Continue, run (SendMessage P msg) (run (fmt_Print "> ") w)).
Proof.
  intros H. unfold main_body. rewrite H.
  unfold run, mbind, M_bind, mret, M_ret, fmt_Print, emit. simpl.
  by destruct (SendMessage P msg _).
Qed.

Lemma main_body_register_parts (input : string) (args : list string) (w : World) :
  Str.SplitN input " " 3 = "register" :: args →
  main_body env input w = (Continue, run (Register env) (run (fmt_Print "> ") w)).
Proof.
  intros H. unfold main_body. rewrite H.
  unfold run, mbind, M_bind, mret, M_ret, fmt_Print, emit. simpl.
  by destruct (Register env _).
Qed.

(** Every line falls in one of the cases above. *)
Lemma main_body_cases (input : string) (w : World) :
  let w0 := run (fmt_Print "> ") w in
  main_body env input w = (Continue, run (Register env) w0)
  ∨ (∃ P, main_body env input w =
            match result (ConnectToPeer env P) w0 with
            | Some err =>
                (Continue, run (fmt_Println ("Error connecting to peer: " +:+ err))
                             (run (ConnectToPeer env P) w0))
            | None => (Continue, run (ConnectToPeer env P) w0)
            end)
  ∨ (∃ P msg, main_body env input w = (Continue, run (SendMessage P msg) w0))
  ∨ (∃ text, main_body env input w = (Continue, run (fmt_Println text) w0))
  ∨ main_body env input w = (Return, w0).
Proof.
  intros w0. subst w0.
  destruct (Str.SplitN input " " 3) as [|cmd args] eqn:Hparts.
  { rewrite SplitN_genSplit in Hparts.
    destruct (genSplit_head input " " 2) as (c & r & Hc). congruence. }
  pose proof (SplitN_length input " " 3) as Hmax. rewrite Hparts in Hmax. simpl in Hmax.
  destruct (decide (cmd = "register")) as [->|H1].
  { left. by eapply main_body_register_parts. }
  destruct (decide (cmd = "connect")) as [->|H2].
  { destruct args as [|P rest].
    - do 3 right. left. eexists. by apply main_body_connect_usage.
    - right. left. exists P. by eapply main_body_connect. }
  destruct (decide (cmd = "send")) as [->|H3].
  { destruct args as [|P [|msg [|x rest]]].
    - do 3 right. left. eexists.
      apply (main_body_send_usage input [] w Hparts). simpl; lia.
    - do 3 right. left. eexists.
      apply (main_body_send_usage input [P] w Hparts). simpl; lia.
    - do 2 right. left. exists P, msg. by apply main_body_send_parts.
    - simpl in Hmax. lia. }
  destruct (decide (cmd = "exit")) as [->|H4].
  { do 4 right. apply main_body_exit. by rewrite Hparts. }
  do 3 right. left. eexists.
  apply (main_body_unknown input cmd w); by rewrite ?Hparts.
Qed.


Lemma logged_app (t1 t2 : list Event) : logged (t1 ++ t2) = logged t1 ++ logged t2.
Proof. unfold logged. apply flat_map_app. Qed.

Lemma sentText_app (t1 t2 : list Event) : sentText (t1 ++ t2) = sentText t1 ++ sentText t2.
Proof. unfold sentText. apply flat_map_app. Qed.


(** X1: [Register] hands exactly one envelope to the relay connection, the
    register envelope with no payload, between the line that announces it
    and a line that tells whether the write failed; it changes neither the
    client nor any object of the collaborator. *)
Theorem X1_register_writes_one_envelope (w : World) :
  let w' := run (Register env) w in
  (∃ err,
     since w w' =
       [EvLog "Sending register message"; EvWriteJSON registerMsg err;
        EvLog (match err with
               | Some e => "Error sending register message: " +:+ e
               | None => "Register message sent successfully"
               end)])
  ∧ written (since w w') = [registerMsg]
  ∧ client w' = client w
  ∧ peerConnections w' = peerConnections w
  ∧ channels w' = channels w.
Proof.
  intros w'. subst w'. unfold_methods. simpl.
  destruct (WriteJSON_err env _ registerMsg) as [e|] eqn:E; simpl.
  - erewrite since_app; [|simpl; rewrite <- ?app_assoc; reflexivity].
    split_and!; try done. by exists (Some e).
  - erewrite since_app; [|simpl; rewrite <- ?app_assoc; reflexivity].
    split_and!; try done. by exists None.
Qed.

Lemma main_body_no_panic (input : string) (w : World) (reason : string) :
  result (main_body env input) w ≠ Panic reason.
Proof.
  unfold result.
  destruct (main_body_cases input w) as [H|[(P & H)|[(P & m & H)|[(t & H)|H]]]];
    rewrite H; try done.
  by destruct (result (ConnectToPeer env P) _).
Qed.

(** X2: no command line makes a turn of the command loop read a part of
    the line that is not there: [parts[0]] always exists, and [parts[1]]
    and [parts[2]] are read only behind the length checks that cover
    them, so the turn ends in [continue] or [return], never in an index
    panic. *)
Theorem X2_command_line_indexing_is_in_range
    (input : string) (w : World) (reason : string) :
  result (main_body env input) w ≠ Panic reason
  ∧ is_Some (Str.SplitN input " " 3 !! 0)
  ∧ (2 ≤ length (Str.SplitN input " " 3) → is_Some (Str.SplitN input " " 3 !! 1))
  ∧ (3 ≤ length (Str.SplitN input " " 3) → is_Some (Str.SplitN input " " 3 !! 2)).
Proof.
  split_and!.
  - apply main_body_no_panic.
  - rewrite SplitN_genSplit.
    destruct (genSplit_head input " " 2) as (c & r & ->). simpl. eauto.
  - intros H. apply lookup_lt_is_Some. lia.
  - intros H. apply lookup_lt_is_Some. lia.
Qed.

(** X4: a line whose first word is none of register, connect, send and
    exit prints the hint about the known commands and nothing else
    happens; the first word is what stands before the first space, so the
    empty line and a line that begins with a space are such lines. *)
Theorem X4_unknown_command_prints_hint (cmd tail line : string) (w : World) :
  Str.free_of " " cmd = true →
  cmd ≠ "register" → cmd ≠ "connect" → cmd ≠ "send" → cmd ≠ "exit" →
  line = cmd ∨ line = cmd +:+ String " " tail →
  main_body env line w =
    (Continue,
     set_trace (trace w ++
       [EvPrint "> ";
        EvPrint ("Unknown command. Available commands: register, connect, send, exit"
                 +:+ Str.newline)]) w).
Proof.
  intros Hfree H1 H2 H3 H4 Hline.
  rewrite <- prompt_then_line. apply (main_body_unknown line cmd); try done.
  destruct Hline as [->| ->].
  - by rewrite SplitN_word.
  - by rewrite SplitN_word_rest.
Qed.

Lemma exec_not_running (inputs : list Input) (p : Process) :
  status p ≠ Running → exec env inputs p = p.
Proof.
  intros H. induction inputs as [|i rest IH]; simpl; [done|].
  assert (step env i p = p) as ->; [|done].
  unfold step. by destruct (status p).
Qed.

(** X5: a line whose first word is exit, with or without more text after
    it, ends the command loop after the prompt alone has been printed;
    the process has exited, and nothing that arrives afterwards, line,
    relay message or callback, changes anything. *)
Theorem X5_exit_ends_the_process
    (tail line : string) (later : list Input) (p : Process) :
  status p = Running →
  line = "exit" ∨ line = "exit " +:+ tail →
  let p' := step env (Stdin line) p in
  status p' = Exited
  ∧ world p' = set_trace (trace (world p) ++ [EvPrint "> "]) (world p)
  ∧ exec env later p' = p'.
Proof.
  intros Hst Hline p'.
  assert (Hbody : main_body env line (world p) = (Return, run (fmt_Print "> ") (world p))).
  { apply main_body_exit. destruct Hline as [->| ->]; [done|].
    change ("exit " +:+ tail) with ("exit" +:+ String " " tail).
    by rewrite SplitN_word_rest. }
  assert (Hp' : p' = {| world := run (fmt_Print "> ") (world p);
                        status := Exited; dispatching := dispatching p |}).
  { unfold p'. rewrite step_stdin by done. unfold run at 1, result. by rewrite Hbody. }
  rewrite Hp'. split_and!; try done.
  by apply exec_not_running.
Qed.

(** X6: the line [connect], the line [send] and a line [send P] with no
    second space only print their usage line.  A trailing space is enough
    to pass the length checks: [connect] followed by one space calls
    [ConnectToPeer] with the empty peer identifier, and [send P] followed
    by one space calls [SendMessage] with the empty message; no usage line
    is printed for them. *)
Theorem X6_short_lines_print_usage (P : string) (w : World) :
  Str.free_of " " P = true →
  main_body env "connect" w =
    (Continue, set_trace (trace w ++
       [EvPrint "> "; EvPrint ("Usage: connect <peerId>" +:+ Str.newline)]) w)
  ∧ main_body env "send" w =
    (Continue, set_trace (trace w ++
       [EvPrint "> "; EvPrint ("Usage: send <peerId> <message>" +:+ Str.newline)]) w)
  ∧ main_body env ("send " +:+ P) w =
    (Continue, set_trace (trace w ++
       [EvPrint "> "; EvPrint ("Usage: send <peerId> <message>" +:+ Str.newline)]) w)
  ∧ main_body env "connect " w =
    match result (ConnectToPeer env "") (run (fmt_Print "> ") w) with
    | Some err =>
        (Continue,
         run (fmt_Println ("Error connecting to peer: " +:+ err))
             (run (ConnectToPeer env "") (run (fmt_Print "> ") w)))
    | None => (Continue, run (ConnectToPeer env "") (run (fmt_Print "> ") w))
    end
  ∧ main_body env ("send " +:+ P +:+ " ") w =
    (Continue, run (SendMessage P "") (run (fmt_Print "> ") w)).
Proof.
  intros HP. rewrite <- !prompt_then_line. split_and!.
  - by apply main_body_connect_usage.
  - apply (main_body_send_usage "send" []); [reflexivity | simpl; lia].
  - apply (main_body_send_usage _ [P]); [|simpl; lia].
    change ("send " +:+ P) with ("send" +:+ String " " P).
    by apply SplitN_word_arg.
  - by apply (main_body_connect "connect " "" []).
  - apply main_body_send_parts.
    change ("send " +:+ P +:+ " ") with ("send" +:+ String " " (P +:+ String " " "")).
    by apply SplitN_three.
Qed.


(** ** The dispatcher, message by message *)

(** X8: a message whose type is none of registered, offer, answer and
    ice-candidate is logged like every message and otherwise ignored: the
    loop goes on and nothing else changes.  The comparison is exact, so a
    type in another case, and the type [register] itself, are ignored. *)
Theorem X8_other_message_types_are_ignored (msg : Message) (w : World) :
  Type_ msg ≠ "registered" → Type_ msg ≠ "offer" →
  Type_ msg ≠ "answer" → Type_ msg ≠ "ice-candidate" →
  handleIncomingMessages_body env (ReadOk msg) w =
    (Continue,
     set_trace (trace w ++ [EvLog ("Received message type: " +:+ Type_ msg);
                            EvLog ("Full message: " +:+ fmt_Message msg)]) w).
Proof. intros H1 H2 H3 H4. by rewrite (body_other env msg w H1 H2 H3 H4). Qed.

(** X9: an answer from a peer with a stored connection is applied to that
    connection by one call of [SetRemoteDescription]; whether the call
    fails or not, nothing about it is logged or written, the client is as
    before and the loop goes on. *)
Theorem X9_answer_is_applied_and_its_error_dropped
    (msg : Message) (pc : PCRef) (w : World) :
  Type_ msg = "answer" →
  peerConns (client w) !! answerPayload.Source (Unmarshal_answer env (Payload msg)).1
    = Some pc →
  let w' := run (handleIncomingMessages_body env (ReadOk msg)) w in
  result (handleIncomingMessages_body env (ReadOk msg)) w = Continue
  ∧ (∃ err,
       since w w' =
         [EvLog ("Received message type: " +:+ Type_ msg);
          EvLog ("Full message: " +:+ fmt_Message msg);
          EvSetRemoteDescription pc
            (answerPayload.Answer (Unmarshal_answer env (Payload msg)).1) err])
  ∧ client w' = client w
  ∧ channels w' = channels w.
Proof.
  intros Hty Hpc w'.
  assert (Hw' : w' = run (handleAnswer env
                   (answerPayload.Answer (Unmarshal_answer env (Payload msg)).1)
                   (answerPayload.Source (Unmarshal_answer env (Payload msg)).1))
                   (received msg w)).
  { unfold w', run at 1. by rewrite (body_answer env msg w Hty). }
  destruct (handleAnswer_present env
              (answerPayload.Answer (Unmarshal_answer env (Payload msg)).1)
              _ pc (received msg w) Hpc) as ((e & Htr) & Hcl & Hch).
  rewrite <- Hw' in Htr, Hcl, Hch. clearbody w'.
  split_and!.
  - apply body_continues.
  - exists e. apply since_app. rewrite Htr. simpl. by rewrite <- app_assoc.
  - by rewrite Hcl.
  - by rewrite Hch.
Qed.

(** A candidate for a peer with a stored connection is given to that
    connection; when the call succeeds the connection has it as its last
    candidate. *)
Lemma handleICECandidate_present
    (c : ICECandidateInit) (src : string) (pc : PCRef) (o : PeerConnection) (w : World) :
  peerConns (client w) !! src = Some pc →
  peerConnections w !! pc = Some o →
  let w' := run (handleICECandidate env c src) w in
  ∃ err, trace w' = trace w ++ [EvAddICECandidate pc c err]
    ∧ client w' = client w
    ∧ channels w' = channels w
    ∧ peerConnections w' !! pc =
        Some (match err with
              | Some _ => o
              | None => {| onDataChannel := onDataChannel o;
                           localDescription := localDescription o;
                           remoteDescription := remoteDescription o;
                           iceCandidates := iceCandidates o ++ [c] |}
              end).
Proof.
  intros H Ho. unfold_methods. rewrite H. simpl.
  destruct (AddICECandidate_err env w pc c) as [e|]; simpl.
  - exists (Some e). done.
  - exists None. split_and!; try done.
    unfold PCRef in *. rewrite list_lookup_alter_eq, Ho. done.
Qed.

Lemma candidates_run (P : string) (pc : PCRef) (msgs : list Message) :
  ∀ (o : PeerConnection) (w : World),
    Forall (λ m, Type_ m = "ice-candidate" ∧ candidate_source env m = P) msgs →
    peerConns (client w) !! P = Some pc →
    peerConnections w !! pc = Some o →
    let w' := run (handleIncomingMessages env (map ReadOk msgs)) w in
    ∃ evs, trace w' = trace w ++ evs
      ∧ written evs = []
      ∧ client w' = client w
      ∧ (existsb negotiation_failed evs = false →
           ∃ o', peerConnections w' !! pc = Some o'
             ∧ iceCandidates o' = iceCandidates o ++ map (candidate_of env) msgs
             ∧ localDescription o' = localDescription o
             ∧ remoteDescription o' = remoteDescription o).
Proof.
  induction msgs as [|m ms IH]; intros o w Hall Hpc Ho w'; subst w'.
  - exists []. unfold run. simpl. rewrite ?app_nil_r. split_and!; try done.
    intros _. exists o. by rewrite ?app_nil_r.
  - inversion Hall as [|? ? [Hty Hsrc] Hms]; subst.
    unfold run. simpl map.
    rewrite handleIncomingMessages_cons, body_continues.
    assert (Hw1 : run (handleIncomingMessages_body env (ReadOk m)) w =
                  run (handleICECandidate env (candidate_of env m) (candidate_source env m))
                      (received m w)).
    { unfold run at 1. by rewrite (body_candidate env m w Hty). }
    rewrite Hw1. clear Hw1.
    set (w1 := run (handleICECandidate env _ _) (received m w)).
    destruct (handleICECandidate_present (candidate_of env m) (candidate_source env m)
                pc o (received m w) Hpc Ho) as (err & Htr1 & Hcl1 & _ & Ho1).
    fold w1 in Htr1, Hcl1, Ho1.
    assert (Hpc1 : peerConns (client w1) !! candidate_source env m = Some pc).
    { by rewrite Hcl1. }
    destruct (IH _ w1 Hms Hpc1 Ho1) as (evs2 & Htr2 & Hwr2 & Hcl2 & Hgood).
    exists ([EvLog ("Received message type: " +:+ Type_ m);
             EvLog ("Full message: " +:+ fmt_Message m);
             EvAddICECandidate pc (candidate_of env m) err] ++ evs2).
    split_and!.
    + unfold run in Htr2. rewrite Htr2, Htr1. simpl. by rewrite <- !app_assoc.
    + rewrite written_app, Hwr2. done.
    + unfold run in Hcl2. by rewrite Hcl2, Hcl1.
    + rewrite existsb_app. destruct err as [e|]; simpl; [discriminate|].
      intros Hok. destruct (Hgood Hok) as (o' & Ho' & Hc & Hl & Hr).
      exists o'. split_and!; try done.
      rewrite Hc. simpl. by rewrite <- app_assoc.
Qed.

(** X10: candidates that arrive for a peer with a stored connection are
    given to that connection in the order of arrival: when no call fails,
    the connection holds its earlier candidates followed by the new ones in
    that order, its descriptions are as before, nothing is written to the
    relay and the client does not change. *)
Theorem X10_candidates_are_applied_in_arrival_order
    (P : string) (pc : PCRef) (o : PeerConnection) (msgs : list Message) (w : World) :
  Forall (λ m, Type_ m = "ice-candidate" ∧ candidate_source env m = P) msgs →
  peerConns (client w) !! P = Some pc →
  peerConnections w !! pc = Some o →
  let w' := run (handleIncomingMessages env (map ReadOk msgs)) w in
  existsb negotiation_failed (since w w') = false →
  (∃ o', peerConnections w' !! pc = Some o'
     ∧ iceCandidates o' = iceCandidates o ++ map (candidate_of env) msgs
     ∧ localDescription o' = localDescription o
     ∧ remoteDescription o' = remoteDescription o)
  ∧ written (since w w') = []
  ∧ client w' = client w.
Proof.
  intros Hall Hpc Ho w' Hok.
  destruct (candidates_run P pc msgs o w Hall Hpc Ho) as (evs & Htr & Hwr & Hcl & Hgood).
  fold w' in Htr, Hcl, Hgood.
  rewrite (since_app _ _ _ Htr) in *. split_and!; auto.
Qed.

(** X15: of two [registered] envelopes in a row the later one decides the
    identifier when its payload decodes to a peerId that is not empty;
    otherwise the identifier of the earlier one stays. *)
Theorem X15_later_registration_overwrites (m1 m2 : Message) (w : World) :
  Type_ m1 = "registered" → Type_ m2 = "registered" →
  (Unmarshal_registered env (Payload m1)).2 = None →
  registeredPayload.PeerID (Unmarshal_registered env (Payload m1)).1 ≠ "" →
  let id1 := registeredPayload.PeerID (Unmarshal_registered env (Payload m1)).1 in
  let id2 := registeredPayload.PeerID (Unmarshal_registered env (Payload m2)).1 in
  let w' := run (handleIncomingMessages env [ReadOk m1; ReadOk m2]) w in
  ((Unmarshal_registered env (Payload m2)).2 = None → id2 ≠ "" → peerID (client w') = id2)
  ∧ (is_Some (Unmarshal_registered env (Payload m2)).2 ∨ id2 = "" → peerID (client w') = id1).
Proof.
  intros H1 H2 Hok1 Hid1 id1 id2 w'.
  assert (Hw' : w' = run (handleIncomingMessages_body env (ReadOk m2))
                         (run (handleIncomingMessages_body env (ReadOk m1)) w)).
  { unfold w', run at 1.
    rewrite handleIncomingMessages_cons, body_continues.
    by rewrite handleIncomingMessages_cons, body_continues. }
  assert (Hfirst : peerID (client (run (handleIncomingMessages_body env (ReadOk m1)) w)) = id1).
  { unfold run. rewrite (body_registered env m1 w H1). simpl.
    rewrite Hok1. by rewrite decide_False. }
  rewrite Hw'. unfold run at 1 3. rewrite (body_registered env m2 _ H2). simpl.
  fold id2.
  destruct ((Unmarshal_registered env (Payload m2)).2) as [e|]; simpl.
  - split; [done|]. intros _. exact Hfirst.
  - case_decide as Hid2; simpl.
    + split; [done|]. intros _. exact Hfirst.
    + split; [done|]. intros [[x Hx]|Hx]; done.
Qed.

(** ** Channels and their callbacks *)

(** Opening a channel whose [OnOpen] handler is the one [setupDataChannel]
    registers stores the channel for the peer of the handler. *)
Lemma channelOpened_stores (dc : DCRef) (P : string) (o : DataChannel) (w : World) :
  channels w !! dc = Some o →
  onOpen o = Some (setupDataChannel_onOpen dc P) →
  channelOpened dc w =
    (tt, set_client {| peerID := peerID (client w);
                       peerConns := peerConns (client w);
                       dataChannels := <[P := dc]> (dataChannels (client w)) |}
           (set_trace (trace w ++
              [EvPrint ("Data channel opened with peer: " +:+ P +:+ Str.newline)]) w)).
Proof.
  intros Ho Hh. unfold channelOpened. unfold DCRef in *. rewrite Ho, Hh.
  by unfold_methods.
Qed.

(** X11: on the answering side, after an offer from P has been answered,
    a channel that the remote side opens on the new connection is set up
    for P: announcing it stores nothing yet, its opening stores it as the
    data channel of P, and [SendMessage P msg] then calls [SendText] once,
    on that channel, with [msg]. *)
Theorem X11_answering_side_round_trip
    (P l msg : string) (offer : SessionDescription) (w : World) :
  let w1 := run (handleOffer env offer P) w in
  existsb negotiation_failed (since w w1) = false →
  let pc := length (peerConnections w) in
  let dc := length (channels w) in
  let w2 := run (channelAnnounced pc l) w1 in
  let w3 := run (channelOpened dc) w2 in
  let w4 := run (SendMessage P msg) w3 in
  peerConns (client w1) !! P = Some pc
  ∧ dataChannels (client w2) = dataChannels (client w)
  ∧ dataChannels (client w3) !! P = Some dc
  ∧ sentText (since w3 w4) = [(dc, msg)].
Proof.
  intros w1 Hok pc dc w2 w3 w4.
  destruct (handleOffer_paths env offer P w)
    as [(evs & Htr & Hfail & _)|(a & werr & _ & Htr1 & Hcl1 & Hch1 & Hpcs1)].
  { fold w1 in Htr. rewrite (since_app _ _ _ Htr) in Hok. congruence. }
  fold w1 in Htr1, Hcl1, Hch1, Hpcs1. fold pc in Hcl1.
  assert (Hw2 : w2 = set_channels (channels w ++
                       [{| label := l; onOpen := Some (setupDataChannel_onOpen dc P);
                           onMessage := Some (setupDataChannel_onMessage P) |}]) w1).
  { unfold w2, run, channelAnnounced. rewrite Hpcs1. unfold pc.
    rewrite lookup_last. simpl. unfold_methods. simpl. rewrite Hch1.
    rewrite !alter_last. simpl. by rewrite ?alter_last. }
  assert (Hopen := channelOpened_stores dc P _ w2
                     ltac:(rewrite Hw2; simpl; unfold dc; apply lookup_last) eq_refl).
  split_and!.
  - rewrite Hcl1. simpl. apply lookup_insert_eq.
  - rewrite Hw2. simpl. by rewrite Hcl1.
  - unfold w3, run. rewrite Hopen. simpl. apply lookup_insert_eq.
  - unfold w4, run at 1. rewrite (SendMessage_present P msg dc).
    + cbn [snd].
      rewrite (since_app w3 _
           [EvSendText dc msg;
            EvPrint ("Message sent to " +:+ P +:+ ": " +:+ msg +:+ Str.newline)]);
        [done | reflexivity].
    + unfold w3, run. rewrite Hopen. simpl. apply lookup_insert_eq.
Qed.

(** X12: after two successful connects to P the stored connection is the
    second one, but the channel of the first still carries its handler:
    when that channel opens it is stored as the data channel of P, beside
    a connection it does not belong to; the channel of the second
    connection replaces it when it opens in turn. *)
Theorem X12_channel_of_a_replaced_connection_is_stored (P : string) (w : World) :
  result (ConnectToPeer env P) w = None →
  result (ConnectToPeer env P) (run (ConnectToPeer env P) w) = None →
  let pc1 := length (peerConnections w) in
  let dc1 := length (channels w) in
  let w1 := run (ConnectToPeer env P) w in
  let w2 := run (ConnectToPeer env P) w1 in
  let w3 := run (channelOpened dc1) w2 in
  let w4 := run (channelOpened (S dc1)) w3 in
  In (EvCreateDataChannel pc1 "data" (inl dc1)) (since w w1)
  ∧ In (EvCreateDataChannel (S pc1) "data" (inl (S dc1))) (since w1 w2)
  ∧ peerConns (client w3) !! P = Some (S pc1)
  ∧ dataChannels (client w3) !! P = Some dc1
  ∧ dataChannels (client w4) !! P = Some (S dc1).
Proof.
  intros Hok1 Hok2 pc1 dc1 w1 w2 w3 w4.
  destruct (ConnectToPeer_paths env P w)
    as [(err & evs & Hres & _)|(o1 & werr1 & _ & _ & Htr1 & Hcl1 & Hch1 & Hpcs1)];
    [congruence|].
  fold w1 in Htr1, Hcl1, Hch1, Hpcs1. fold pc1 in Htr1, Hcl1. fold dc1 in Htr1, Hch1.
  destruct (ConnectToPeer_paths env P w1)
    as [(err & evs & Hres & _)|(o2 & werr2 & _ & _ & Htr2 & Hcl2 & Hch2 & _)];
    [unfold w1 in Hres; congruence|].
  fold w2 in Htr2, Hcl2, Hch2.
  assert (Hl1 : length (peerConnections w1) = S pc1).
  { rewrite Hpcs1, length_app. simpl. unfold pc1. lia. }
  assert (Hl2 : length (channels w1) = S dc1).
  { rewrite Hch1, length_app. simpl. unfold dc1. lia. }
  rewrite Hl1 in Htr2, Hcl2. rewrite Hl2 in Htr2, Hch2.
  assert (Hlk1 : channels w2 !! dc1 =
            Some {| label := "data"; onOpen := Some (setupDataChannel_onOpen dc1 P);
                    onMessage := Some (setupDataChannel_onMessage P) |}).
  { rewrite Hch2, Hch1. unfold dc1. rewrite lookup_app_l, lookup_last; [done|].
    rewrite length_app. simpl. lia. }
  pose proof (channelOpened_stores dc1 P _ w2 Hlk1 eq_refl) as Hopen1.
  assert (Hw3 : channels w3 = channels w2).
  { unfold w3, run. by rewrite Hopen1. }
  assert (Hlk2 : channels w3 !! S dc1 =
            Some {| label := "data"; onOpen := Some (setupDataChannel_onOpen (S dc1) P);
                    onMessage := Some (setupDataChannel_onMessage P) |}).
  { rewrite Hw3, Hch2, <- Hl2. apply lookup_last. }
  pose proof (channelOpened_stores (S dc1) P _ w3 Hlk2 eq_refl) as Hopen2.
  split_and!.
  - rewrite (since_app _ _ _ Htr1). simpl. auto.
  - rewrite (since_app _ _ _ Htr2). simpl. auto.
  - unfold w3, run. rewrite Hopen1. simpl. rewrite Hcl2. simpl. apply lookup_insert_eq.
  - unfold w3, run. rewrite Hopen1. simpl. apply lookup_insert_eq.
  - unfold w4, run. rewrite Hopen2. simpl. apply lookup_insert_eq.
Qed.

(** X16: a message that arrives on the channel [ConnectToPeer P] created
    is printed with the name of P, and nothing else happens. *)
Theorem X16_inbound_text_is_printed (P data : string) (w : World) :
  result (ConnectToPeer env P) w = None →
  let w1 := run (ConnectToPeer env P) w in
  channelMessage (length (channels w)) data w1 =
    (tt, set_trace (trace w1 ++
           [EvPrint ("Received message from " +:+ P +:+ ": " +:+ data +:+ Str.newline)]) w1).
Proof.
  intros Hok w1.
  destruct (ConnectToPeer_paths env P w)
    as [(err & evs & Hres & _)|(o1 & werr1 & _ & _ & _ & _ & Hch1 & _)];
    [congruence|].
  fold w1 in Hch1. unfold channelMessage. rewrite Hch1, lookup_last. simpl.
  by unfold_methods.
Qed.

(** ** What a negotiation leaves alone *)

(** X13: a connect to P and the handling of an offer from P, whether they
    succeed or fail, leave the connection stored for every other peer,
    every stored data channel and the local identifier as they were. *)
Theorem X13_other_peers_are_untouched
    (P Q : string) (offer : SessionDescription) (w : World) :
  Q ≠ P →
  (peerConns (client (run (ConnectToPeer env P) w)) !! Q = peerConns (client w) !! Q
   ∧ dataChannels (client (run (ConnectToPeer env P) w)) = dataChannels (client w)
   ∧ peerID (client (run (ConnectToPeer env P) w)) = peerID (client w))
  ∧ (peerConns (client (run (handleOffer env offer P) w)) !! Q = peerConns (client w) !! Q
     ∧ dataChannels (client (run (handleOffer env offer P) w)) = dataChannels (client w)
     ∧ peerID (client (run (handleOffer env offer P) w)) = peerID (client w)).
Proof.
  intros Hne. split.
  - destruct (ConnectToPeer_paths env P w)
      as [(err & evs & _ & _ & _ & _ & Hcl)|(o & werr & _ & _ & _ & Hcl & _)];
      rewrite Hcl; [done|]. simpl. by rewrite lookup_insert_ne.
  - destruct (handleOffer_paths env offer P w)
      as [(evs & _ & _ & _ & Hcl)|(a & werr & _ & _ & Hcl & _)];
      rewrite Hcl; [done|]. simpl. by rewrite lookup_insert_ne.
Qed.

Lemma keeps_sessions_refl (c : Client) : keeps_sessions c c.
Proof. by split. Qed.

Lemma keeps_sessions_trans (c1 c2 c3 : Client) :
  keeps_sessions c1 c2 → keeps_sessions c2 c3 → keeps_sessions c1 c3.
Proof. intros [H1 H2] [H3 H4]. split; intros k Hk; auto. Qed.

Lemma keeps_sessions_insert_conn (c : Client) (k : string) (pc : PCRef) :
  keeps_sessions c {| peerID := peerID c; peerConns := <[k := pc]> (peerConns c);
                      dataChannels := dataChannels c |}.
Proof.
  split; intros j Hj; simpl; [|done].
  destruct (decide (k = j)) as [->|Hne].
  - rewrite lookup_insert_eq. eauto.
  - by rewrite lookup_insert_ne.
Qed.

Lemma keeps_sessions_insert_channel (c : Client) (k : string) (dc : DCRef) :
  keeps_sessions c {| peerID := peerID c; peerConns := peerConns c;
                      dataChannels := <[k := dc]> (dataChannels c) |}.
Proof.
  split; intros j Hj; simpl; [done|].
  destruct (decide (k = j)) as [->|Hne].
  - rewrite lookup_insert_eq. eauto.
  - by rewrite lookup_insert_ne.
Qed.

Lemma ConnectToPeer_keeps (P : string) (w : World) :
  keeps_sessions (client w) (client (run (ConnectToPeer env P) w)).
Proof.
  destruct (ConnectToPeer_paths env P w)
    as [(err & evs & _ & _ & _ & _ & Hcl)|(o & werr & _ & _ & _ & Hcl & _)];
    rewrite Hcl; [apply keeps_sessions_refl | apply keeps_sessions_insert_conn].
Qed.

Lemma handleOffer_keeps (offer : SessionDescription) (P : string) (w : World) :
  keeps_sessions (client w) (client (run (handleOffer env offer P) w)).
Proof.
  destruct (handleOffer_paths env offer P w)
    as [(evs & _ & _ & _ & Hcl)|(a & werr & _ & _ & Hcl & _)];
    rewrite Hcl; [apply keeps_sessions_refl | apply keeps_sessions_insert_conn].
Qed.

Lemma handleAnswer_client (answer : SessionDescription) (P : string) (w : World) :
  client (run (handleAnswer env answer P) w) = client w.
Proof.
  unfold_methods. destruct (peerConns (client w) !! P); simpl; [|done].
  by destruct (SetRemoteDescription_err env w _ answer).
Qed.

Lemma handleICECandidate_client (c : ICECandidateInit) (P : string) (w : World) :
  client (run (handleICECandidate env c P) w) = client w.
Proof.
  unfold_methods. destruct (peerConns (client w) !! P); simpl; [|done].
  by destruct (AddICECandidate_err env w _ c).
Qed.

Lemma SendMessage_client (P msg : string) (w : World) :
  client (run (SendMessage P msg) w) = client w.
Proof. unfold_methods. by destruct (dataChannels (client w) !! P). Qed.

Lemma Register_client (w : World) : client (run (Register env) w) = client w.
Proof.
  destruct (Register_run env w) as (werr & line & H). unfold run. by rewrite H.
Qed.

Lemma body_keeps (r : ReadResult) (w : World) :
  keeps_sessions (client w) (client (run (handleIncomingMessages_body env r) w)).
Proof.
  destruct r as [msg|u e].
  2:{ unfold run. rewrite body_read_error. apply keeps_sessions_refl. }
  unfold run.
  destruct (decide (Type_ msg = "registered")) as [H1|H1].
  { rewrite (body_registered env msg w H1). simpl.
    destruct ((Unmarshal_registered env (Payload msg)).2); simpl;
      [apply keeps_sessions_refl|].
    case_decide; simpl; [apply keeps_sessions_refl|]. by split. }
  destruct (decide (Type_ msg = "offer")) as [H2|H2].
  { rewrite (body_offer env msg w H2). cbn [snd].
    change (client w) with (client (received msg w)). apply handleOffer_keeps. }
  destruct (decide (Type_ msg = "answer")) as [H3|H3].
  { rewrite (body_answer env msg w H3). cbn [snd].
    rewrite handleAnswer_client. apply keeps_sessions_refl. }
  destruct (decide (Type_ msg = "ice-candidate")) as [H4|H4].
  { rewrite (body_candidate env msg w H4). cbn [snd].
    rewrite handleICECandidate_client. apply keeps_sessions_refl. }
  rewrite (body_other env msg w H1 H2 H3 H4). apply keeps_sessions_refl.
Qed.

Lemma main_body_keeps (input : string) (w : World) :
  keeps_sessions (client w) (client (run (main_body env input) w)).
Proof.
  unfold run.
  destruct (main_body_cases input w) as [H|[(P & H)|[(P & m & H)|[(t & H)|H]]]];
    rewrite H; cbn [snd].
  - rewrite Register_client. apply keeps_sessions_refl.
  - change (client w) with (client (run (fmt_Print "> ") w)).
    destruct (result (ConnectToPeer env P) _); cbn [snd]; [|apply ConnectToPeer_keeps].
    change (client (run (fmt_Println ?s) ?x)) with (client x). apply ConnectToPeer_keeps.
  - rewrite SendMessage_client. apply keeps_sessions_refl.
  - apply keeps_sessions_refl.
  - apply keeps_sessions_refl.
Qed.

Lemma channelOpened_keeps (dc : DCRef) (w : World) :
  keeps_sessions (client w) (client (run (channelOpened dc) w)).
Proof.
  unfold run, channelOpened.
  destruct (channels w !! dc) as [o|]; [|apply keeps_sessions_refl].
  destruct (onOpen o) as [[d P]|]; [|apply keeps_sessions_refl].
  unfold_methods. simpl. apply keeps_sessions_insert_channel.
Qed.

Lemma channelMessage_client (dc : DCRef) (data : string) (w : World) :
  client (run (channelMessage dc data) w) = client w.
Proof.
  unfold run, channelMessage.
  destruct (channels w !! dc) as [o|]; [|done].
  by destruct (onMessage o) as [[P]|].
Qed.

Lemma channelAnnounced_client (pc : PCRef) (l : string) (w : World) :
  client (run (channelAnnounced pc l) w) = client w.
Proof.
  unfold run, channelAnnounced.
  destruct (peerConnections w !! pc) as [o|]; [|done].
  by destruct (onDataChannel o) as [[P]|].
Qed.

Lemma step_keeps (i : Input) (p : Process) :
  keeps_sessions (client (world p)) (client (world (step env i p))).
Proof.
  unfold step. destruct (status p); try apply keeps_sessions_refl.
  destruct i as [line|r|dc|dc data|pc l]; simpl.
  - apply main_body_keeps.
  - destruct (dispatching p); [apply body_keeps | apply keeps_sessions_refl].
  - apply channelOpened_keeps.
  - rewrite channelMessage_client. apply keeps_sessions_refl.
  - rewrite channelAnnounced_client. apply keeps_sessions_refl.
Qed.

(** X14: the program has no operation that removes a session: whatever
    lines, relay reads and callbacks a process goes through, a peer that
    has a stored connection keeps one, and a peer that has a stored data
    channel keeps one. *)
Theorem X14_sessions_are_never_removed (inputs : list Input) (p : Process) :
  keeps_sessions (client (world p)) (client (world (exec env inputs p))).
Proof.
  revert p. induction inputs as [|i rest IH]; intros p; simpl.
  - apply keeps_sessions_refl.
  - eapply keeps_sessions_trans; [apply step_keeps | apply IH].
Qed.

(** [Register] calls [WriteJSON] once and logs what it returned. *)
Lemma Register_events (w : World) :
  ∃ werr,
    Register env w =
      (tt, set_trace (trace w ++
             [EvLog "Sending register message"; EvWriteJSON registerMsg werr;
              EvLog (match werr with
                     | Some e => "Error sending register message: " +:+ e
                     | None => "Register message sent successfully"
                     end)]) w).
Proof.
  unfold_methods. simpl.
  destruct (WriteJSON_err env _ registerMsg) as [e|] eqn:E; simpl;
    [exists (Some e) | exists None]; rewrite <- ?app_assoc; reflexivity.
Qed.

(** X17: a read that fails stops the dispatcher and nothing else: the
    process keeps running with the client as it was, every later relay
    read is left unread, and the command loop still serves its lines: a
    register line still calls [WriteJSON] with the register envelope and
    logs whether that write failed, as it will when the read failed
    because the connection is gone. *)
Theorem X17_commands_outlive_the_dispatcher
    (unexpected : bool) (err : error) (r : ReadResult) (p : Process) :
  status p = Running → dispatching p = true →
  let p1 := step env (Relay (ReadErr unexpected err)) p in
  status p1 = Running
  ∧ dispatching p1 = false
  ∧ client (world p1) = client (world p)
  ∧ step env (Relay r) p1 = p1
  ∧ status (step env (Stdin "register") p1) = Running
  ∧ (∃ werr,
       since (world p1) (world (step env (Stdin "register") p1)) =
         [EvPrint "> "; EvLog "Sending register message";
          EvWriteJSON registerMsg werr;
          EvLog (match werr with
                 | Some e => "Error sending register message: " +:+ e
                 | None => "Register message sent successfully"
                 end)]).
Proof.
  intros Hst Hd p1.
  assert (Hp1 : p1 = {| world := set_trace (trace (world p) ++
                          [EvLog ((if unexpected
                                   then "WebSocket connection closed unexpectedly: "
                                   else "Error reading message: ") +:+ err)]) (world p);
                        status := Running; dispatching := false |}).
  { unfold p1, step. rewrite Hst, Hd. unfold run, result. by rewrite body_read_error. }
  clearbody p1. subst p1. split_and!; try done.
  - rewrite step_stdin by done. cbn [status world]. unfold result.
    by rewrite main_body_register.
  - rewrite step_stdin by done. cbn [world]. unfold run at 1.
    rewrite main_body_register. cbn [snd].
    match goal with |- context [run (Register env) ?x] =>
      destruct (Register_events x) as (werr & HR) end.
    exists werr. unfold run at 1. rewrite HR. cbn [snd].
    apply since_app. simpl. by rewrite <- app_assoc.
Qed.

Ltac settle_log :=
  erewrite since_app; [|simpl; rewrite <- ?app_assoc; reflexivity];
  simpl; split_and!; try done; intros;
  repeat match goal with H : _ ∨ _ |- _ => destruct H as [H|H] end;
  try done; simplify_eq; done.

(** X18: [handleOffer] logs a failed negotiation call in one line that
    names that call and ends with its error: creating the connection,
    setting the remote description, creating the answer or setting the
    local description.  It logs exactly one line when a call failed and
    none when every call succeeded; it never prints and never sends text
    on a channel. *)
Theorem X18_failed_offer_is_logged_once
    (offer : SessionDescription) (P : string) (w : World) :
  let w' := run (handleOffer env offer P) w in
  (∀ err, In (EvNewPeerConnection (inr err)) (since w w') →
     logged (since w w') = ["Error creating peer connection: " +:+ err])
  ∧ (∀ pc d err, In (EvSetRemoteDescription pc d (Some err)) (since w w') →
       logged (since w w') = ["Error setting remote description: " +:+ err])
  ∧ (∀ pc err, In (EvCreateAnswer pc (inr err)) (since w w') →
       logged (since w w') = ["Error creating answer: " +:+ err])
  ∧ (∀ pc d err, In (EvSetLocalDescription pc d (Some err)) (since w w') →
       logged (since w w') = ["Error setting local description: " +:+ err])
  ∧ (existsb negotiation_failed (since w w') = true →
       length (logged (since w w')) = 1)
  ∧ (existsb negotiation_failed (since w w') = false → logged (since w w') = [])
  ∧ printed (since w w') = []
  ∧ sentText (since w w') = [].
Proof.
  intros w'. subst w'. unfold_methods.
  ask_env; [settle_log|].
  ask_env; [settle_log|].
  ask_env; [|settle_log].
  ask_env; [settle_log|].
  settle_log.
Qed.

End Further.

(** ** More concrete runs *)

Lemma X4_witness :
  Str.free_of " " "" = true
  ∧ result (main_body happy " register") NewClient = Continue
  ∧ printed (since NewClient (run (main_body happy "") NewClient))
      = ["> "; "Unknown command. Available commands: register, connect, send, exit"
               +:+ Str.newline].
Proof.
  split; [reflexivity|]. split.
  - unfold result.
    rewrite (X4_unknown_command_prints_hint happy "" "register" " register" NewClient);
      [reflexivity | reflexivity | discriminate | discriminate | discriminate
       | discriminate | right; reflexivity].
  - unfold run.
    rewrite (X4_unknown_command_prints_hint happy "" "" "" NewClient);
      [reflexivity | reflexivity | discriminate | discriminate | discriminate
       | discriminate | left; reflexivity].
Defined.

Lemma X5_witness :
  status start = Running
  ∧ status (step happy (Stdin "exit now") start) = Exited
  ∧ exec happy [Stdin "register"; Relay (ReadOk registeredAbc)]
         (step happy (Stdin "exit now") start)
      = step happy (Stdin "exit now") start.
Proof.
  split; [reflexivity|].
  destruct (X5_exit_ends_the_process happy "now" "exit now"
              [Stdin "register"; Relay (ReadOk registeredAbc)] start eq_refl
              (or_intror eq_refl)) as (H1 & _ & H3).
  split; assumption.
Defined.

Lemma X6_witness :
  Str.free_of " " "xyz" = true
  ∧ result (main_body happy ("send " +:+ "xyz")) NewClient = Continue
  ∧ sentText (since NewClient (run (main_body happy ("send " +:+ "xyz" +:+ " ")) NewClient))
      = [].
Proof.
  split; [reflexivity|].
  destruct (X6_short_lines_print_usage happy "xyz" NewClient eq_refl)
    as (_ & _ & H & _ & Hsp).
  split.
  - unfold result. rewrite H. reflexivity.
  - unfold run at 1. rewrite Hsp. reflexivity.
Defined.


Lemma X8_witness :
  Type_ {| Type_ := "Offer"; Payload := "{}" |} ≠ "offer"
  ∧ result (handleIncomingMessages_body happy
              (ReadOk {| Type_ := "Offer"; Payload := "{}" |})) NewClient = Continue.
Proof.
  split; [discriminate|]. unfold result.
  rewrite (X8_other_message_types_are_ignored happy
             {| Type_ := "Offer"; Payload := "{}" |} NewClient);
    [reflexivity | discriminate | discriminate | discriminate | discriminate].
Defined.

Lemma X9_witness :
  Type_ (answerFrom "p") = "answer"
  ∧ peerConns (client (run (ConnectToPeer happy "p") NewClient))
      !! answerPayload.Source (Unmarshal_answer happy (Payload (answerFrom "p"))).1 = Some 0
  ∧ client (run (handleIncomingMessages_body happy (ReadOk (answerFrom "p")))
              (run (ConnectToPeer happy "p") NewClient))
      = client (run (ConnectToPeer happy "p") NewClient).
Proof.
  split; [reflexivity|]. split; [reflexivity|].
  apply (X9_answer_is_applied_and_its_error_dropped happy (answerFrom "p") 0
           (run (ConnectToPeer happy "p") NewClient)); reflexivity.
Defined.

Lemma X10_witness :
  Forall (λ m, Type_ m = "ice-candidate" ∧ candidate_source happy m = "p")
         [candidateFrom "p"; candidateFrom "p"]
  ∧ peerConns (client (run (ConnectToPeer happy "p") NewClient)) !! "p" = Some 0
  ∧ existsb negotiation_failed
      (since (run (ConnectToPeer happy "p") NewClient)
         (run (handleIncomingMessages happy
                 (map ReadOk [candidateFrom "p"; candidateFrom "p"]))
              (run (ConnectToPeer happy "p") NewClient))) = false
  ∧ written
      (since (run (ConnectToPeer happy "p") NewClient)
         (run (handleIncomingMessages happy
                 (map ReadOk [candidateFrom "p"; candidateFrom "p"]))
              (run (ConnectToPeer happy "p") NewClient))) = [].
Proof.
  assert (Hall : Forall (λ m, Type_ m = "ice-candidate" ∧ candidate_source happy m = "p")
                        [candidateFrom "p"; candidateFrom "p"]).
  { repeat constructor. }
  split; [exact Hall|]. split; [reflexivity|]. split; [reflexivity|].
  apply (X10_candidates_are_applied_in_arrival_order happy "p" 0
           {| onDataChannel := None; localDescription := Some sampleOffer;
              remoteDescription := None; iceCandidates := [] |}
           [candidateFrom "p"; candidateFrom "p"]
           (run (ConnectToPeer happy "p") NewClient) Hall);
    reflexivity.
Defined.

Lemma X11_witness :
  existsb negotiation_failed
    (since NewClient (run (handleOffer happy sampleOffer "p") NewClient)) = false
  ∧ peerConns (client (run (handleOffer happy sampleOffer "p") NewClient)) !! "p" = Some 0.
Proof.
  split; [reflexivity|].
  apply (X11_answering_side_round_trip happy "p" "data" "hello" sampleOffer NewClient).
  reflexivity.
Defined.

Lemma X12_witness :
  result (ConnectToPeer happy "p") NewClient = None
  ∧ result (ConnectToPeer happy "p") (run (ConnectToPeer happy "p") NewClient) = None
  ∧ dataChannels
      (client (run (channelOpened 0)
                 (run (ConnectToPeer happy "p") (run (ConnectToPeer happy "p") NewClient))))
      !! "p" = Some 0.
Proof.
  split; [reflexivity|]. split; [reflexivity|].
  apply (X12_channel_of_a_replaced_connection_is_stored happy "p" NewClient);
    reflexivity.
Defined.

Lemma X13_witness :
  "q" ≠ "p"
  ∧ peerConns (client (run (ConnectToPeer happy "p")
                         (run (ConnectToPeer happy "q") NewClient))) !! "q"
      = peerConns (client (run (ConnectToPeer happy "q") NewClient)) !! "q".
Proof.
  assert (Hne : "q" ≠ "p") by discriminate.
  split; [exact Hne|].
  apply (X13_other_peers_are_untouched happy "p" "q" zeroDescription
           (run (ConnectToPeer happy "q") NewClient) Hne).
Defined.

Lemma X15_witness :
  Type_ registeredAbc = "registered" ∧ Type_ registeredBad = "registered"
  ∧ (Unmarshal_registered happy (Payload registeredAbc)).2 = None
  ∧ peerID (client (run (handleIncomingMessages happy
                            [ReadOk registeredAbc; ReadOk registeredBad]) NewClient))
      = "abc".
Proof.
  split; [reflexivity|]. split; [reflexivity|]. split; [reflexivity|].
  assert (Hid : registeredPayload.PeerID
                  (Unmarshal_registered happy (Payload registeredAbc)).1 ≠ "").
  { vm_compute. discriminate. }
  destruct (X15_later_registration_overwrites happy registeredAbc registeredBad NewClient
              eq_refl eq_refl eq_refl Hid) as (_ & Hkeep).
  apply Hkeep. left. vm_compute. eauto.
Defined.

Lemma X16_witness :
  result (ConnectToPeer happy "p") NewClient = None
  ∧ printed (since (run (ConnectToPeer happy "p") NewClient)
               (run (channelMessage 0 "hi") (run (ConnectToPeer happy "p") NewClient)))
      = ["Received message from " +:+ "p" +:+ ": " +:+ "hi" +:+ Str.newline].
Proof.
  split; [reflexivity|].
  pose proof (X16_inbound_text_is_printed happy "p" "hi" NewClient eq_refl) as H.
  change (length (channels NewClient)) with 0 in H.
  unfold run at 2. rewrite H. reflexivity.
Defined.

Lemma X17_witness :
  status start = Running ∧ dispatching start = true
  ∧ step happy (Relay (ReadOk registeredAbc))
      (step happy (Relay (ReadErr true "close 1006")) start)
    = step happy (Relay (ReadErr true "close 1006")) start.
Proof.
  split; [reflexivity|]. split; [reflexivity|].
  apply (X17_commands_outlive_the_dispatcher happy true "close 1006"
           (ReadOk registeredAbc) start eq_refl eq_refl).
Defined.

Lemma X18_witness :
  In (EvNewPeerConnection (inr "no connection"))
     (since NewClient (run (handleOffer failing zeroDescription "p") NewClient))
  ∧ logged (since NewClient (run (handleOffer failing zeroDescription "p") NewClient))
      = ["Error creating peer connection: " +:+ "no connection"].
Proof.
  assert (Hin : In (EvNewPeerConnection (inr "no connection"))
                  (since NewClient (run (handleOffer failing zeroDescription "p") NewClient))).
  { left. reflexivity. }
  split; [exact Hin|].
  destruct (X18_failed_offer_is_logged_once failing zeroDescription "p" NewClient)
    as (Hfail & _).
  exact (Hfail "no connection" Hin).
Defined.

(** * What reaches the relay *)

(** ** The scanner on the payloads main.go formats *)

Lemma scan_app (st : Json.State * list Json.Frame) (a b : string) :
  Json.scan st (a +:+ b) = Json.scan (Json.scan st a) b.
Proof.
  revert st. induction a as [|c a IH]; intros st; [done|].
  rewrite append_cons. simpl. apply IH.
Qed.

Lemma scan_error (stack : list Json.Frame) (s : string) :
  Json.scan (Json.Error, stack) s = (Json.Error, stack).
Proof. induction s as [|c s IH]; [done|]. simpl. apply IH. Qed.

Lemma scan_plain (key : bool) (stack : list Json.Frame) (s : string) :
  Json.plain s = true →
  Json.scan (Json.InString key, stack) s = (Json.InString key, stack).
Proof.
  induction s as [|c s IH]; intros H; [done|].
  simpl in H. apply andb_prop in H as [H Hs]. apply andb_prop in H as [H H3].
  apply andb_prop in H as [H1 H2].
  apply negb_true_iff in H1, H2, H3.
  simpl. rewrite H1, H2, H3. by apply IH.
Qed.

(** A value cannot begin with the letter v. *)
Lemma scan_value_v (stack : list Json.Frame) (s : string) :
  Json.scan (Json.BeginValue, stack) (String "v" s) = (Json.Error, stack).
Proof. simpl. apply scan_error. Qed.

(** The payload of an offer or an answer holds the SDP as it is, without
    quotes; an SDP text begins with its version line, so the payload is
    not a JSON text. *)
Lemma offer_payload_invalid (target rest : string) :
  Json.plain target = true →
  Json.Valid (payload_of "offer" target (String "v" rest)) = false.
Proof.
  intros Hplain. unfold Json.Valid.
  change (payload_of "offer" target (String "v" rest))
    with (("{" +:+ Str.dquote +:+ "target" +:+ Str.dquote +:+ ":" +:+ Str.dquote) +:+
          target +:+
          (Str.dquote +:+ "," +:+ Str.dquote +:+ "offer" +:+ Str.dquote +:+ ":") +:+
          String "v" (rest +:+ "}")).
  rewrite scan_app.
  change (Json.scan (Json.BeginValue, [])
            ("{" +:+ Str.dquote +:+ "target" +:+ Str.dquote +:+ ":" +:+ Str.dquote))
    with (Json.InString false, [Json.InObject]).
  rewrite scan_app, scan_plain by done. rewrite scan_app.
  change (Json.scan (Json.InString false, [Json.InObject])
            (Str.dquote +:+ "," +:+ Str.dquote +:+ "offer" +:+ Str.dquote +:+ ":"))
    with (Json.BeginValue, [Json.InObject]).
  by rewrite scan_value_v.
Qed.

Lemma answer_payload_invalid (target rest : string) :
  Json.plain target = true →
  Json.Valid (payload_of "answer" target (String "v" rest)) = false.
Proof.
  intros Hplain. unfold Json.Valid.
  change (payload_of "answer" target (String "v" rest))
    with (("{" +:+ Str.dquote +:+ "target" +:+ Str.dquote +:+ ":" +:+ Str.dquote) +:+
          target +:+
          (Str.dquote +:+ "," +:+ Str.dquote +:+ "answer" +:+ Str.dquote +:+ ":") +:+
          String "v" (rest +:+ "}")).
  rewrite scan_app.
  change (Json.scan (Json.BeginValue, [])
            ("{" +:+ Str.dquote +:+ "target" +:+ Str.dquote +:+ ":" +:+ Str.dquote))
    with (Json.InString false, [Json.InObject]).
  rewrite scan_app, scan_plain by done. rewrite scan_app.
  change (Json.scan (Json.InString false, [Json.InObject])
            (Str.dquote +:+ "," +:+ Str.dquote +:+ "answer" +:+ Str.dquote +:+ ":"))
    with (Json.BeginValue, [Json.InObject]).
  by rewrite scan_value_v.
Qed.

Lemma payload_not_nil (field target sdp : string) : payload_of field target sdp ≠ "".
Proof. discriminate. Qed.

Lemma attempts_app (t1 t2 : list Event) : attempts (t1 ++ t2) = attempts t1 ++ attempts t2.
Proof. unfold attempts. apply flat_map_app. Qed.

Lemma delivered_app (t1 t2 : list Event) : delivered (t1 ++ t2) = delivered t1 ++ delivered t2.
Proof. unfold delivered. apply flat_map_app. Qed.

Section Delivery.

Context (env : Env).

(** What [ConnectToPeer] and [handleOffer] record for their write is the
    answer of the connection. *)
Lemma ConnectToPeer_answered (P : string) (w : World) :
  Forall (write_answered env) (since w (run (ConnectToPeer env P) w)).
Proof.
  unfold_methods.
  ask_env.
  { erewrite since_app; [|simpl; rewrite <- ?app_assoc; reflexivity]. by repeat constructor. }
  ask_env.
  { erewrite since_app; [|simpl; rewrite <- ?app_assoc; reflexivity]. by repeat constructor. }
  ask_env.
  2:{ erewrite since_app; [|simpl; rewrite <- ?app_assoc; reflexivity]. by repeat constructor. }
  ask_env.
  { erewrite since_app; [|simpl; rewrite <- ?app_assoc; reflexivity]. by repeat constructor. }
  erewrite since_app; [|simpl; rewrite <- ?app_assoc; reflexivity].
  repeat constructor. simpl. eauto.
Qed.

Lemma handleOffer_answered (offer : SessionDescription) (P : string) (w : World) :
  Forall (write_answered env) (since w (run (handleOffer env offer P) w)).
Proof.
  unfold_methods.
  ask_env.
  { erewrite since_app; [|simpl; rewrite <- ?app_assoc; reflexivity]. by repeat constructor. }
  ask_env.
  { erewrite since_app; [|simpl; rewrite <- ?app_assoc; reflexivity]. by repeat constructor. }
  ask_env.
  2:{ erewrite since_app; [|simpl; rewrite <- ?app_assoc; reflexivity]. by repeat constructor. }
  ask_env.
  { erewrite since_app; [|simpl; rewrite <- ?app_assoc; reflexivity]. by repeat constructor. }
  erewrite since_app; [|simpl; rewrite <- ?app_assoc; reflexivity].
  repeat constructor. simpl. eauto.
Qed.

(** A successful [handleOffer] for a source that needs no escaping, at a
    connection that encodes as encoding/json does, with an answer that is
    SDP text: the answer is stored and its one write fails. *)
Lemma handleOffer_write_fails (offer : SessionDescription) (src : string) (w : World) :
  marshals env →
  (∀ w0 pc d, CreateAnswer_res env w0 pc = inl d → ∃ rest, SDP d = String "v" rest) →
  Json.plain src = true →
  let w' := run (handleOffer env offer src) w in
  (∃ evs, trace w' = trace w ++ evs
     ∧ existsb negotiation_failed evs = true ∧ attempts evs = [] ∧ delivered evs = []
     ∧ client w' = client w)
  ∨ (∃ evs answer err, trace w' = trace w ++ evs
       ∧ existsb negotiation_failed evs = false
       ∧ attempts evs = [(answerMsg src answer, Some err)]
       ∧ delivered evs = []
       ∧ Json.Valid (Payload (answerMsg src answer)) = false
       ∧ client w' = {| peerID := peerID (client w);
                        peerConns := <[src := length (peerConnections w)]> (peerConns (client w));
                        dataChannels := dataChannels (client w) |}).
Proof.
  intros Hm Hsdp Hplain w'.
  pose proof (handleOffer_answered offer src w) as Hans. fold w' in Hans.
  destruct (handleOffer_paths env offer src w)
    as [(evs & Htr & Hfail & Hwr & Hcl)|(a & werr & (w0 & Ha) & Htr & Hcl & _)];
    fold w' in Htr, Hcl.
  - left. exists evs. split_and!; try done.
    + clear -Hwr. induction evs as [|[] evs IH]; simpl in *; try done; by apply IH.
    + clear -Hwr. induction evs as [|[] evs IH]; simpl in *; try done; by apply IH.
  - right. rewrite (since_app _ _ _ Htr) in Hans.
    destruct (Hsdp _ _ _ Ha) as (rest & Hv).
    assert (Hbad : Json.Valid (Payload (answerMsg src a)) = false).
    { simpl. rewrite Hv. by apply answer_payload_invalid. }
    assert (Hsome : is_Some werr).
    { apply Forall_cons in Hans as [_ Hans]. apply Forall_cons in Hans as [_ Hans].
      apply Forall_cons in Hans as [_ Hans]. apply Forall_cons in Hans as [_ Hans].
      apply Forall_cons in Hans as [(w1 & ->) _].
      apply Hm; [apply payload_not_nil | exact Hbad]. }
    destruct Hsome as (err & ->).
    eexists _, a, err. split; [exact Htr|]. split_and!; done.
Qed.

Lemma offers_run_writes_fail (msgs : list Message) :
  marshals env →
  (∀ w0 pc d, CreateAnswer_res env w0 pc = inl d → ∃ rest, SDP d = String "v" rest) →
  ∀ w, Forall (λ m, Type_ m = "offer" ∧ Json.plain (offer_source env m) = true) msgs →
    let w' := run (handleIncomingMessages env (map ReadOk msgs)) w in
    ∃ evs, trace w' = trace w ++ evs
      ∧ (existsb negotiation_failed evs = false →
           Forall2 (λ m a, ∃ answer err,
                      a = (answerMsg (offer_source env m) answer, Some err)
                      ∧ Json.Valid (Payload (answerMsg (offer_source env m) answer)) = false)
                   msgs (attempts evs)
           ∧ delivered evs = []
           ∧ (∀ k, is_Some (peerConns (client w) !! k) → is_Some (peerConns (client w') !! k))
           ∧ Forall (λ m, is_Some (peerConns (client w') !! offer_source env m)) msgs).
Proof.
  intros Hm Hsdp. induction msgs as [|m ms IH]; intros w Hall w'; subst w'.
  - exists []. split; [by rewrite app_nil_r|].
    intros _. split_and!; [constructor | done | done | constructor].
  - inversion Hall as [|? ? [Hty Hplain] Hms]; subst.
    unfold run. simpl map.
    rewrite handleIncomingMessages_cons, body_continues.
    assert (Hw1 : run (handleIncomingMessages_body env (ReadOk m)) w =
                  run (handleOffer env (offerPayload.Offer (Unmarshal_offer env (Payload m)).1)
                         (offer_source env m))
                      (received m w)).
    { unfold run at 1. by rewrite (body_offer env m w Hty). }
    rewrite Hw1. clear Hw1.
    set (w1 := run (handleOffer env _ _) (received m w)).
    destruct (IH w1 Hms) as (evs2 & Htr2 & Hgood).
    destruct (handleOffer_write_fails (offerPayload.Offer (Unmarshal_offer env (Payload m)).1)
                (offer_source env m) (received m w) Hm Hsdp Hplain)
      as [(evs1 & Htr1 & Hfail & _)|(evs1 & a & err & Htr1 & Hnf & Hat & Hdel & Hbad & Hcl1)];
      fold w1 in Htr1.
    + exists ([EvLog ("Received message type: " +:+ Type_ m);
               EvLog ("Full message: " +:+ fmt_Message m)] ++ evs1 ++ evs2).
      split.
      { unfold run in Htr2. rewrite Htr2, Htr1. simpl. by rewrite <- !app_assoc. }
      rewrite !existsb_app, Hfail. simpl. discriminate.
    + fold w1 in Hcl1.
      exists ([EvLog ("Received message type: " +:+ Type_ m);
               EvLog ("Full message: " +:+ fmt_Message m)] ++ evs1 ++ evs2).
      split.
      { unfold run in Htr2. rewrite Htr2, Htr1. simpl. by rewrite <- !app_assoc. }
      intros Hok. rewrite !existsb_app, Hnf in Hok. simpl in Hok.
      destruct (Hgood Hok) as (Hout & Hdel2 & Hmono & Hstored).
      assert (Hsrc : is_Some (peerConns (client w1) !! offer_source env m)).
      { rewrite Hcl1. simpl. rewrite lookup_insert_eq. eauto. }
      split_and!.
      * rewrite !attempts_app, Hat. simpl. constructor; [|exact Hout]. by exists a, err.
      * rewrite !delivered_app, Hdel, Hdel2. done.
      * intros k Hk. apply Hmono. rewrite Hcl1. simpl.
        destruct (decide (offer_source env m = k)) as [->|Hne].
        -- rewrite lookup_insert_eq. eauto.
        -- by rewrite lookup_insert_ne.
      * constructor; [by apply Hmono | exact Hstored].
Qed.

(** C4 (the code against it): for offers whose sources need no escaping,
    at a connection that encodes as encoding/json does and with answers
    that are SDP text, the client does store a connection for every
    source and does call [WriteJSON] once per offer, in order, with an
    envelope of type answer whose payload names the source as target; but
    the payload holds the SDP without quotes, it is not a JSON text, every
    one of these writes returns an error, and no answer is delivered. *)
Theorem C4_answers_are_written_but_not_delivered (msgs : list Message) (w : World) :
  marshals env →
  (∀ w0 pc d, CreateAnswer_res env w0 pc = inl d → ∃ rest, SDP d = String "v" rest) →
  Forall (λ m, Type_ m = "offer" ∧ Json.plain (offer_source env m) = true) msgs →
  let w' := run (handleIncomingMessages env (map ReadOk msgs)) w in
  existsb negotiation_failed (since w w') = false →
  Forall2 (λ m a, ∃ answer err,
             a = ({| Type_ := "answer";
                     Payload := "{" +:+ Str.dquote +:+ "target" +:+ Str.dquote +:+ ":"
                                    +:+ Str.dquote +:+ offer_source env m +:+ Str.dquote
                                    +:+ "," +:+ Str.dquote +:+ "answer" +:+ Str.dquote +:+ ":"
                                    +:+ SDP answer +:+ "}" |}, Some err)
             ∧ Json.Valid (Payload a.1) = false)
          msgs (attempts (since w w'))
  ∧ delivered (since w w') = []
  ∧ Forall (λ m, is_Some (peerConns (client w') !! offer_source env m)) msgs.
Proof.
  intros Hm Hsdp Hall w' Hok.
  destruct (offers_run_writes_fail msgs Hm Hsdp w Hall) as (evs & Htr & Hgood).
  fold w' in Htr, Hgood.
  rewrite (since_app _ _ _ Htr) in *.
  destruct (Hgood Hok) as (Hout & Hdel & _ & Hstored).
  split_and!; try done.
  eapply Forall2_impl; [exact Hout|].
  intros m a (answer & err & -> & Hbad). by exists answer, err.
Qed.

(** C5 (the code against it): on the lines [register] and [connect xyz]
    with a [registered] envelope carrying peerId abc between them, at a
    connection that encodes as encoding/json does and with an offer that
    is SDP text, the client calls [WriteJSON] twice: with the register
    envelope, and with an envelope of type offer whose payload has target
    xyz and the SDP of the offer without quotes.  That payload is not a
    JSON text, the write returns an error, which [ConnectToPeer] drops, and
    no envelope of type offer is delivered. *)
Theorem C5_offer_is_written_but_not_delivered (p : Process) (reg : Message) :
  status p = Running → dispatching p = true →
  Type_ reg = "registered" →
  Unmarshal_registered env (Payload reg) = ({| registeredPayload.PeerID := "abc" |}, None) →
  marshals env →
  (∀ w0 pc d, CreateOffer_res env w0 pc = inl d → ∃ rest, SDP d = String "v" rest) →
  let p' := exec env [Stdin "register"; Relay (ReadOk reg); Stdin "connect xyz"] p in
  existsb negotiation_failed (since (world p) (world p')) = false →
  ∃ offer rerr err,
    attempts (since (world p) (world p')) =
      [(registerMsg, rerr);
       ({| Type_ := "offer";
           Payload := "{" +:+ Str.dquote +:+ "target" +:+ Str.dquote +:+ ":"
                          +:+ Str.dquote +:+ "xyz" +:+ Str.dquote
                          +:+ "," +:+ Str.dquote +:+ "offer" +:+ Str.dquote +:+ ":"
                          +:+ SDP offer +:+ "}" |}, Some err)]
    ∧ SDP offer ≠ ""
    ∧ Json.Valid ("{" +:+ Str.dquote +:+ "target" +:+ Str.dquote +:+ ":"
                      +:+ Str.dquote +:+ "xyz" +:+ Str.dquote
                      +:+ "," +:+ Str.dquote +:+ "offer" +:+ Str.dquote +:+ ":"
                      +:+ SDP offer +:+ "}") = false
    ∧ filter (λ m, Type_ m = "offer") (delivered (since (world p) (world p'))) = []
    ∧ peerID (client (world p')) = "abc"
    ∧ status p' = Running.
Proof.
  intros Hst Hd Hty Hdec Hm Hsdp p'.
  assert (∃ w2 werr line,
            trace w2 = trace (world p) ++
              [EvPrint "> "; EvLog "Sending register message";
               EvWriteJSON registerMsg werr; EvLog line;
               EvLog ("Received message type: " +:+ Type_ reg);
               EvLog ("Full message: " +:+ fmt_Message reg);
               EvLog "Registered with peer ID: 'abc'";
               EvPrint ("Registered with peer ID: " +:+ "abc" +:+ Str.newline)]
            ∧ peerID (client w2) = "abc"
            ∧ p' = {| world := (main_body env "connect xyz" w2).2;
                      status := status_after (main_body env "connect xyz" w2).1;
                      dispatching := true |}) as (w2 & werr & line & Htr2 & Hid2 & Hp').
  { subst p'. cbn [exec].
    rewrite (step_stdin env "register" p Hst).
    unfold run at 1, result at 1. rewrite main_body_register. cbn [fst snd status_after].
    destruct (Register_run env (run (fmt_Print "> ") (world p))) as (werr & line & HR).
    unfold run at 1. rewrite HR. cbn [snd].
    rewrite step_relay_ok by done. cbn [world].
    unfold run at 1. rewrite (body_registered env reg _ Hty), Hdec. cbn [fst snd].
    rewrite decide_False by done. cbn [snd registeredPayload.PeerID].
    rewrite step_stdin by done. cbn [world status dispatching].
    unfold run at 1, result at 1.
    match goal with |- context [main_body env "connect xyz" ?x] => set (w2 := x) end.
    exists w2, werr, line. split_and!; [|done|done].
    unfold w2, run, fmt_Print, emit. simpl. by rewrite <- !app_assoc. }
  clearbody p'. subst p'. cbn [world status]. rewrite main_body_connect_xyz.
  set (w3 := run (fmt_Print "> ") w2).
  assert (Htr3 : trace w3 = trace (world p) ++
            [EvPrint "> "; EvLog "Sending register message";
             EvWriteJSON registerMsg werr; EvLog line;
             EvLog ("Received message type: " +:+ Type_ reg);
             EvLog ("Full message: " +:+ fmt_Message reg);
             EvLog "Registered with peer ID: 'abc'";
             EvPrint ("Registered with peer ID: " +:+ "abc" +:+ Str.newline);
             EvPrint "> "]).
  { unfold w3, run, fmt_Print, emit. cbn [snd trace set_trace]. rewrite Htr2.
    by rewrite <- !app_assoc. }
  pose proof (ConnectToPeer_answered "xyz" w3) as Hans.
  destruct (ConnectToPeer_paths env "xyz" w3)
    as [(err & evs & Hres & Htr & Hfail & _)|(o & werr3 & Hres & (w0 & Ho) & Htr & Hcl & _)];
    rewrite Hres; cbn [fst snd status_after].
  - intros Hok. exfalso. revert Hok.
    erewrite since_app.
    2:{ change (trace (run (fmt_Println ?s) ?x)) with (trace x ++ [EvPrint (s +:+ Str.newline)]).
        rewrite Htr, Htr3. rewrite <- !app_assoc. reflexivity. }
    rewrite !existsb_app, Hfail. simpl. discriminate.
  - intros _.
    destruct (Hsdp _ _ _ Ho) as (rest & Hv).
    assert (Hbad : Json.Valid (Payload (offerMsg "xyz" o)) = false).
    { simpl. rewrite Hv. by apply offer_payload_invalid. }
    assert (Hsome : is_Some werr3).
    { rewrite (since_app _ _ _ Htr) in Hans.
      apply Forall_cons in Hans as [_ Hans]. apply Forall_cons in Hans as [_ Hans].
      apply Forall_cons in Hans as [_ Hans]. apply Forall_cons in Hans as [_ Hans].
      apply Forall_cons in Hans as [(w1 & ->) _].
      apply Hm; [apply payload_not_nil | exact Hbad]. }
    destruct Hsome as (e & ->).
    exists o, werr, e.
    erewrite since_app.
    2:{ rewrite Htr, Htr3. rewrite <- !app_assoc. reflexivity. }
    split_and!.
    + done.
    + rewrite Hv. discriminate.
    + exact Hbad.
    + by destruct werr.
    + by rewrite Hcl.
    + done.
Qed.

End Delivery.

(** ** The unquoted SDP on concrete runs *)

Lemma marshalling_marshals : marshals marshalling.
Proof.
  intros w msg Hnil Hbad. simpl.
  rewrite decide_False by done. rewrite Hbad. eauto.
Qed.

Lemma marshalling_offer_is_sdp (w : World) (pc : PCRef) (d : SessionDescription) :
  CreateOffer_res marshalling w pc = inl d → ∃ rest, SDP d = String "v" rest.
Proof. intros H. injection H as <-. by exists "=0". Qed.

Lemma marshalling_answer_is_sdp (w : World) (pc : PCRef) (d : SessionDescription) :
  CreateAnswer_res marshalling w pc = inl d → ∃ rest, SDP d = String "v" rest.
Proof. intros H. injection H as <-. by exists "=0". Qed.

Lemma C4_witness :
  Forall (λ m, Type_ m = "offer" ∧ Json.plain (offer_source marshalling m) = true)
         [offerFrom "p"; offerFrom "q"]
  ∧ existsb negotiation_failed
      (since NewClient
         (run (handleIncomingMessages marshalling (map ReadOk [offerFrom "p"; offerFrom "q"]))
              NewClient)) = false
  ∧ length (attempts (since NewClient
         (run (handleIncomingMessages marshalling (map ReadOk [offerFrom "p"; offerFrom "q"]))
              NewClient))) = 2
  ∧ delivered (since NewClient
         (run (handleIncomingMessages marshalling (map ReadOk [offerFrom "p"; offerFrom "q"]))
              NewClient)) = [].
Proof.
  assert (Hall : Forall (λ m, Type_ m = "offer" ∧ Json.plain (offer_source marshalling m) = true)
                        [offerFrom "p"; offerFrom "q"]).
  { repeat constructor. }
  split; [exact Hall|]. split; [reflexivity|].
  destruct (C4_answers_are_written_but_not_delivered marshalling
              [offerFrom "p"; offerFrom "q"] NewClient
              marshalling_marshals marshalling_answer_is_sdp Hall eq_refl)
    as (Hout & Hdel & _).
  split; [|exact Hdel].
  symmetry. exact (Forall2_length _ _ _ Hout).
Defined.

Lemma C5_witness :
  status start = Running ∧ dispatching start = true
  ∧ Type_ registeredAbc = "registered"
  ∧ Unmarshal_registered marshalling (Payload registeredAbc)
      = ({| registeredPayload.PeerID := "abc" |}, None)
  ∧ existsb negotiation_failed
      (since (world start)
         (world (exec marshalling [Stdin "register"; Relay (ReadOk registeredAbc);
                                   Stdin "connect xyz"] start))) = false
  ∧ filter (λ m, Type_ m = "offer")
      (delivered (since (world start)
         (world (exec marshalling [Stdin "register"; Relay (ReadOk registeredAbc);
                                   Stdin "connect xyz"] start)))) = [].
Proof.
  split; [reflexivity|]. split; [reflexivity|]. split; [reflexivity|].
  split; [reflexivity|]. split; [reflexivity|].
  destruct (C5_offer_is_written_but_not_delivered marshalling start registeredAbc
              eq_refl eq_refl eq_refl eq_refl marshalling_marshals
              marshalling_offer_is_sdp eq_refl)
    as (offer & rerr & err & _ & _ & _ & Hdel & _).
  exact Hdel.
Defined.
